(** * ResumeParser: the Gemini resume analyzer (resumep.py)

    A shallow embedding of the three pieces of logic of [resumep.py]:
    the PDF text extraction loop, the prompt construction of
    [generate_table_from_resumes], and the conversion of the model's
    Markdown answer into a [pandas] DataFrame.

    Python [str] values are modelled by [string]; every character stands
    for one code point below 256.  The Streamlit calls ([st.info],
    [st.warning], ...) and the call to the Gemini model are recorded, in
    program order, in a log of events. *)

From Stdlib Require Import String Ascii List Bool Arith Lia NArith.
Import ListNotations.
Open Scope string_scope.
Open Scope list_scope.

Set Implicit Arguments.

(** ** Python string primitives *)

Module PyStr.

Definition newline : ascii := ascii_of_nat 10.
Definition pipe : ascii := ascii_of_nat 124.
Definition dquote : ascii := ascii_of_nat 34.

(** The one-character string of a line feed. *)
Definition nl : string := String newline EmptyString.

(** [str.isspace] on one code point below 256: TAB..CR, FS..US, space,
    NEL and the no-break space. *)
Definition isspace (a : ascii) : bool :=
  let n := nat_of_ascii a in
  (((9 <=? n) && (n <=? 13)) || ((28 <=? n) && (n <=? 32))
   || (n =? 133) || (n =? 160))%nat.

Definition is_char (c : ascii) (a : ascii) : bool := Ascii.eqb a c.

Definition is_empty (s : string) : bool :=
  match s with EmptyString => true | String _ _ => false end.

(** [s.lstrip(chars)], the stripped characters given by a predicate. *)
Fixpoint lstrip (p : ascii -> bool) (s : string) : string :=
  match s with
  | EmptyString => EmptyString
  | String a s' => if p a then lstrip p s' else s
  end.

(** [s.rstrip(chars)]. *)
Fixpoint rstrip (p : ascii -> bool) (s : string) : string :=
  match s with
  | EmptyString => EmptyString
  | String a s' =>
      let r := rstrip p s' in
      if is_empty r && p a then EmptyString else String a r
  end.

(** [s.strip()] when [p] is [isspace], [s.strip('|')] when [p] is
    [is_char pipe]. *)
Definition strip_by (p : ascii -> bool) (s : string) : string :=
  rstrip p (lstrip p s).

Definition strip (s : string) : string := strip_by isspace s.

(** [s.split(c)] for a one-character separator: every occurrence cuts,
    empty pieces are kept, the result is never empty. *)
Fixpoint split (c : ascii) (s : string) : list string :=
  match s with
  | EmptyString => [EmptyString]
  | String a s' =>
      if Ascii.eqb a c then EmptyString :: split c s'
      else match split c s' with
           | [] => [String a EmptyString]
           | w :: ws => String a w :: ws
           end
  end.

(** [sep.join(xs)]. *)
Fixpoint join (sep : string) (xs : list string) : string :=
  match xs with
  | [] => EmptyString
  | [x] => x
  | x :: rest => x ++ sep ++ join sep rest
  end.

(** [c in s]. *)
Fixpoint contains_char (c : ascii) (s : string) : bool :=
  match s with
  | EmptyString => false
  | String a s' => Ascii.eqb a c || contains_char c s'
  end.

(** [s.startswith(c)] and [s.endswith(c)] for one character. *)
Definition startswith (c : ascii) (s : string) : bool :=
  match s with
  | EmptyString => false
  | String a _ => Ascii.eqb a c
  end.

Fixpoint endswith (c : ascii) (s : string) : bool :=
  match s with
  | EmptyString => false
  | String a EmptyString => Ascii.eqb a c
  | String _ s' => endswith c s'
  end.


End PyStr.

(** ** Outcomes of calls that may raise *)

Inductive result (E A : Type) : Type :=
| Ok (a : A)
| Raise (e : E).
Arguments Ok {E A} a.
Arguments Raise {E A} e.

(** ** The Markdown answer turned into a DataFrame (lines 137-146) *)

Module Table.
Import PyStr.

(** [generated_content.strip().split('\n')] *)
Definition lines_of (generated_content : string) : list string :=
  split newline (strip generated_content).

(** [[c.strip() for c in line.strip('|').split('|')]], the expression
    used for the header line and for every data line. *)
Definition cells (line : string) : list string :=
  map strip (split pipe (strip_by (is_char pipe) line)).

(** [lines[0]]; [lines] is never empty, the default is not reached. *)
Definition header_of (lines : list string) : list string :=
  cells (nth 0 lines EmptyString).

(** The loop [for line in lines[2:]: data.append(...)]. *)
Definition data_of (lines : list string) : list (list string) :=
  map cells (skipn 2 lines).

(** A DataFrame as far as the program looks at it: the column labels
    and the rows; a cell is [None] where pandas stores a missing
    value. *)
Record DataFrame : Type := mkDataFrame {
  columns : list string;
  rows : list (list (option string))
}.

(** The exception of the DataFrame constructor:
    "[passed] columns passed, passed data had [had] columns". *)
Inductive ValueError : Type :=
| ColumnsMismatch (passed had : nat).

Definition width (data : list (list string)) : nat :=
  list_max (map (@List.length string) data).

Definition fill (k : nat) (row : list string) : list (option string) :=
  map Some row ++ repeat None (k - List.length row).

(** [pd.DataFrame(data, columns=header)] on a list of lists of
    strings, as pandas documents and implements it: an empty [data]
    gives an empty frame with the given columns; otherwise the rows are
    laid out in an object array as wide as the longest row, shorter
    rows being completed with missing values, and the number of column
    labels must be that width. *)
Definition pd_DataFrame (data : list (list string)) (header : list string)
  : result ValueError DataFrame :=
  match data with
  | [] => Ok (mkDataFrame header [])
  | _ :: _ =>
      let k := width data in
      if (List.length header =? k)%nat
      then Ok (mkDataFrame header (map (fill k) data))
      else Raise (ColumnsMismatch (List.length header) k)
  end.

(** The body of the [try] up to the construction of [df]. *)
Definition markdown_to_dataframe (generated_content : string)
  : result ValueError DataFrame :=
  let lines := lines_of generated_content in
  pd_DataFrame (data_of lines) (header_of lines).

End Table.

Module TableExamples.
Import PyStr Table.

Definition scenario1 : string :=
  "| Name | Years |" ++ nl ++ "|---|---|" ++ nl ++
  "| Alice | 5 |" ++ nl ++ "| Bob | 3 |".

Definition scenario2 : string := "Here is some text with no table.".

Definition scenario3 : string :=
  "| Name | Years |" ++ nl ++ "Alice, 5 years".

Definition scenario4 : string :=
  "| Name | Years |" ++ nl ++ "|---|---|" ++ nl ++ "| Alice |".

Definition no_table_frame : DataFrame :=
  mkDataFrame ["Here is some text with no table."] [].

Definition with_separator : string :=
  ("| Name | Years |" ++ nl ++ "|---|---|")%string.

(** A short row and a long row under a two-column header. *)
Definition long_row : string :=
  "| Name | Years |" ++ nl ++ "|---|---|" ++ nl ++ "| Alice | 5 | x |".

(** A short row below a full one. *)
Definition ragged : string :=
  "| Name | Years |" ++ nl ++ "|---|---|" ++ nl ++
  "| Alice | 5 |" ++ nl ++ "| Bob |".

(** A full row above a line with one cell too many. *)
Definition wide_neighbour : string :=
  "| Name | Years |" ++ nl ++ "|---|---|" ++ nl ++
  "| Alice | 5 |" ++ nl ++ "| Bob | 3 | x |".

(** The table of scenario 1 with Windows line ends. *)
Definition crlf : string :=
  "| Name | Years |" ++ String (ascii_of_nat 13) nl ++
  "|---|---|" ++ String (ascii_of_nat 13) nl ++
  "| Alice | 5 |" ++ String (ascii_of_nat 13) nl ++ "| Bob | 3 |".

(** A table followed by a blank line, a further pipe line and text. *)
Definition trailing : string :=
  "| A |" ++ nl ++ "|---|" ++ nl ++ "| x |" ++ nl ++ nl ++
  "| y |" ++ nl ++ "End of table.".

End TableExamples.

(** ** The Streamlit script: events, extraction, prompt, orchestration *)

Module App.
Import PyStr Table.

(** What the script does to the outside, in program order: the
    Streamlit calls it makes and the calls to the Gemini model. *)
Inductive Event : Type :=
| st_info (msg : string)
| st_warning (msg : string)
| st_error (msg : string)
| st_success (msg : string)
| st_spinner (msg : string)
| st_subheader (msg : string)
| st_markdown (body : string)
| st_dataframe (df : DataFrame)
| generate_content (prompt : string).

(** A computation returns its value together with the events it
    emitted. *)
Definition UI (A : Type) : Type := (A * list Event)%type.

Definition ret {A : Type} (a : A) : UI A := (a, []).

Definition bind {A B : Type} (m : UI A) (k : A -> UI B) : UI B :=
  (fst (k (fst m)), snd m ++ snd (k (fst m))).

Definition emit (e : Event) : UI unit := (tt, [e]).

Definition value {A : Type} (m : UI A) : A := fst m.
Definition events {A : Type} (m : UI A) : list Event := snd m.

Declare Scope ui_scope.
Delimit Scope ui_scope with ui.
Notation "x <- m ;; k" := (bind m (fun x => k))
  (at level 61, m at next level, right associativity) : ui_scope.
Notation "m ;; k" := (bind m (fun _ => k))
  (at level 61, right associativity) : ui_scope.
Local Open Scope ui_scope.

Definition nl : string := String newline EmptyString.
Definition backquoted (s : string) : string := ("`" ++ s ++ "`")%string.
Definition quoted (s : string) : string :=
  String dquote (s ++ String dquote EmptyString)%string.

(** *** extract_text_from_pdf *)

(** What PyPDF2 makes of the bytes of one upload: [PdfReader] raises
    or gives pages, and [extract_text] raises or gives a string on
    each page.  An exception is kept as its message. *)
Definition Pdf : Type := result string (list (result string string)).

Record UploadedFile : Type := mkUpload {
  name : string;
  getvalue : Pdf
}.

(** [for page in pdf_reader.pages: text += page.extract_text()] *)
Fixpoint read_pages (pages : list (result string string)) (text : string)
  : result string string :=
  match pages with
  | [] => Ok text
  | Ok t :: rest => read_pages rest (text ++ t)%string
  | Raise e :: _ => Raise e
  end.

Definition extract_text_from_pdf (pdf_file : Pdf) : UI (option string) :=
  let attempt :=
    match pdf_file with
    | Ok pages => read_pages pages EmptyString
    | Raise e => Raise e
    end in
  match attempt with
  | Ok text => ret (Some text)
  | Raise e =>
      emit (st_error ("Error reading PDF file: " ++ e)%string) ;;
      ret None
  end.

(** Python truthiness of [text]: neither [None] nor the empty
    string. *)
Definition truthy (text : option string) : option string :=
  match text with
  | Some (String a s) => Some (String a s)
  | _ => None
  end.

(** *** The extraction loop (lines 116-125) *)

Definition skip_warning (pdf : UploadedFile) : Event :=
  st_warning ("Could not extract text from " ++ backquoted (name pdf)
              ++ ". Skipping.")%string.

Fixpoint extraction_loop (uploaded_files : list UploadedFile)
    (all_resume_texts : list string) : UI (list string) :=
  match uploaded_files with
  | [] => ret all_resume_texts
  | pdf :: rest =>
      emit (st_info ("Processing: " ++ backquoted (name pdf))%string) ;;
      text <- extract_text_from_pdf (getvalue pdf) ;;
      texts <- match truthy text with
               | Some t => ret (all_resume_texts ++ [t])
               | None => emit (skip_warning pdf) ;; ret all_resume_texts
               end ;;
      extraction_loop rest texts
  end.

(** *** generate_table_from_resumes *)

Definition new_resume_separator : string :=
  (nl ++ nl ++ "--- NEW RESUME ---" ++ nl ++ nl)%string.

Definition intro_line : string :=
  "    Based on the following resume texts, create a Markdown table summarizing the key information for each candidate.".

Definition columns_line : string :=
  ("    The table should have the following columns: "
   ++ quoted "Name" ++ ", " ++ quoted "Age / DOB" ++ ", "
   ++ quoted "Years of Experience" ++ ", "
   ++ quoted "Specialization / JD" ++ ", "
   ++ quoted "Key Skills / Certifications" ++ ", and "
   ++ quoted "Other Details" ++ ".")%string.

Definition fallback_line : string :=
  ("    Extract the information as accurately as possible. If a piece of information is not found, write "
   ++ quoted "Not specified" ++ ".")%string.

(** The f-string up to [{combined_text}] and after it. *)
Definition template_head : string :=
  (nl ++ intro_line ++ nl ++ columns_line ++ nl ++ fallback_line ++ nl
   ++ nl ++ "    Resume Texts:" ++ nl ++ "    ")%string.

Definition template_tail : string := (nl ++ "    ")%string.

Definition build_prompt (resume_texts : list string) : string :=
  let combined_text := join new_resume_separator resume_texts in
  (template_head ++ combined_text ++ template_tail)%string.

(** Two of the labels are the same string. *)
Fixpoint has_duplicates (labels : list string) : bool :=
  match labels with
  | [] => false
  | label :: rest =>
      existsb (String.eqb label) rest || has_duplicates rest
  end.

Section WithModel.

(** [model.generate_content(prompt)] followed by [response.text]:
    the answer, or the exception raised. *)
Variable model : string -> result string string.

Definition generate_table_from_resumes (resume_texts : list string)
  : UI string :=
  match resume_texts with
  | [] => ret "No resume text provided."
  | _ :: _ =>
      let prompt := build_prompt resume_texts in
      emit (generate_content prompt) ;;
      match model prompt with
      | Ok text => ret text
      | Raise e =>
          ret ("An error occurred while calling the Gemini API: " ++ e)%string
      end
  end.

(** *** The script from [if uploaded_files:] to its end

    [button] is the value of [st.button].  [st.dataframe] is called
    inside the [try]: it hands the frame to Arrow, which refuses a
    frame with two columns of the same name; the call then raises,
    after the subheader has been shown, and the [except] branch shows
    its notice. *)

Definition display (generated_content : string) : UI unit :=
  emit (st_subheader "Candidate Comparison Table") ;;
  emit (st_markdown generated_content) ;;
  match markdown_to_dataframe generated_content with
  | Ok df =>
      emit (st_subheader "Formatted Data Table") ;;
      if has_duplicates (columns df)
      then emit (st_info "Could not automatically convert the output to a formatted table, displaying raw output above.")
      else emit (st_dataframe df)
  | Raise _ =>
      emit (st_info "Could not automatically convert the output to a formatted table, displaying raw output above.")
  end.

Definition analysis (uploaded_files : list UploadedFile) : UI unit :=
  emit (st_spinner "Reading PDFs and analyzing with Gemini... Please wait.") ;;
  all_resume_texts <- extraction_loop uploaded_files [] ;;
  match all_resume_texts with
  | [] => ret tt
  | _ :: _ =>
      emit (st_success "Successfully extracted text from all PDFs. Now generating the table...") ;;
      generated_content <- generate_table_from_resumes all_resume_texts ;;
      display generated_content
  end.

Definition main (uploaded_files : list UploadedFile) (button : bool)
  : UI unit :=
  match uploaded_files with
  | _ :: _ => if button then analysis uploaded_files else ret tt
  | [] => emit (st_info "Please upload one or more PDF files to get started.")
  end ;;
  emit (st_markdown "---") ;;
  emit (st_markdown "Powered by Google Gemini").

End WithModel.

(** The prompts sent to the model, and the warnings shown. *)
Definition llm_calls (log : list Event) : list string :=
  flat_map (fun e => match e with generate_content p => [p] | _ => [] end) log.

Definition warnings (log : list Event) : list string :=
  flat_map (fun e => match e with st_warning m => [m] | _ => [] end) log.

(** What one turn of the extraction loop keeps and what it emits. *)
Definition extracted (pdf : UploadedFile) : option string :=
  truthy (value (extract_text_from_pdf (getvalue pdf))).

Definition kept (pdf : UploadedFile) : list string :=
  match extracted pdf with
  | Some t => [t]
  | None => []
  end.

Definition iteration_events (pdf : UploadedFile) : list Event :=
  st_info ("Processing: " ++ backquoted (name pdf))%string
  :: events (extract_text_from_pdf (getvalue pdf))
  ++ match extracted pdf with
     | Some _ => []
     | None => [skip_warning pdf]
     end.

(** Three uploads for the examples: two readable ones around one that
    PyPDF2 rejects, and one whose pages hold no text. *)
Definition alice_pdf : UploadedFile :=
  mkUpload "alice.pdf" (Ok [Ok "Alice, 5 years"; Ok " of Rust"]).
Definition broken_pdf : UploadedFile :=
  mkUpload "broken.pdf" (Raise "EOF marker not found").
Definition bob_pdf : UploadedFile :=
  mkUpload "bob.pdf" (Ok [Ok "Bob, 3 years"]).
Definition scanned_pdf : UploadedFile :=
  mkUpload "broken.pdf" (Ok [Ok EmptyString; Ok EmptyString]).

Definition empty_pdf : UploadedFile := mkUpload "empty.pdf" (Ok []).

(** A model whose call raises. *)
Definition failing_model (prompt : string) : result string string :=
  Raise "429 quota exceeded".

(** A model whose exception text holds pipes and repeats a cell. *)
Definition repeating_model (prompt : string) : result string string :=
  Raise "quota | 429 | 429".

(** A model that answers every prompt with the table of scenario 1. *)
Definition canned_model (prompt : string) : result string string :=
  Ok TableExamples.scenario1.


End App.

(** ** The shapes the specification speaks of

    The conversion never tests a line for these shapes; they are stated
    here, in the specification's words, to say which inputs a claim is
    about. *)

Module SpecShapes.
Import PyStr Table.

(** "after trimming, starts and ends with a pipe character" *)
Definition spec_header_shaped (line : string) : bool :=
  startswith pipe (strip line) && endswith pipe (strip line).

(** "composed only of pipes, hyphens, colons, and whitespace" *)
Definition separator_char (a : ascii) : bool :=
  Ascii.eqb a pipe || Ascii.eqb a "-" || Ascii.eqb a ":" || isspace a.

Fixpoint all_chars (p : ascii -> bool) (s : string) : bool :=
  match s with
  | EmptyString => true
  | String a s' => p a && all_chars p s'
  end.

Definition spec_separator_shaped (line : string) : bool :=
  all_chars separator_char line.

(** "no line, after trimming, both starts and ends with a pipe" *)
Definition spec_no_header_line (s : string) : bool :=
  forallb (fun line => negb (spec_header_shaped line)) (lines_of s).

(** "a blank line" *)
Definition spec_blank (line : string) : bool := is_empty (strip line).

End SpecShapes.

(** ** The layout of a Markdown table

    The text the conversion is written for: a row is its cells between
    pipes, one space on each side of a cell; a table is the header row,
    a separator line and the data rows, one per line.  These are used
    to state what the conversion gives back on such a text. *)

Module Layout.
Import PyStr Table.

Definition render_row (row : list string) : string :=
  ("| " ++ join " | " row ++ " |")%string.

Definition render_table (header : list string) (separator : string)
    (data : list (list string)) : string :=
  join nl (render_row header :: separator :: map render_row data).

(** The number of occurrences of a character. *)
Fixpoint count_char (c : ascii) (s : string) : nat :=
  match s with
  | EmptyString => 0
  | String a s' => (if Ascii.eqb a c then 1 else 0) + count_char c s'
  end.

(** Every character satisfies [p]. *)
Fixpoint only_chars (p : ascii -> bool) (s : string) : bool :=
  match s with
  | EmptyString => true
  | String a s' => p a && only_chars p s'
  end.

(** The first, the last character satisfies [p]. *)
Definition first_is (p : ascii -> bool) (s : string) : bool :=
  match s with
  | EmptyString => false
  | String a _ => p a
  end.

Fixpoint last_is (p : ascii -> bool) (s : string) : bool :=
  match s with
  | EmptyString => false
  | String a EmptyString => p a
  | String _ s' => last_is p s'
  end.

(** A cell that the layout can carry: already trimmed, and free of the
    two characters that cut a table. *)
Definition plain_cell (c : string) : Prop :=
  strip c = c /\ contains_char pipe c = false
  /\ contains_char newline c = false.

Definition plain_row (row : list string) : Prop :=
  row <> [] /\ Forall plain_cell row.

(** The texts of the pages of a document, one after the other. *)
Definition all_text (texts : list string) : string :=
  fold_right append EmptyString texts.

End Layout.

(** * Properties *)

(** ** Facts on the string primitives *)

Module PyStrFacts.
Import PyStr.

Lemma split_not_nil (c : ascii) (s : string) : split c s <> [].
Proof.
  destruct s as [|a s]; simpl; [discriminate|].
  destruct (Ascii.eqb a c); [discriminate|].
  destruct (split c s); discriminate.
Qed.

Lemma split_without (c : ascii) (s : string) :
  contains_char c s = false -> split c s = [s].
Proof.
  induction s as [|a s IH]; simpl; intros H; [reflexivity|].
  apply orb_false_elim in H as [Ha Hs].
  rewrite Ha, (IH Hs). reflexivity.
Qed.

Lemma rstrip_idem (p : ascii -> bool) (s : string) :
  rstrip p (rstrip p s) = rstrip p s.
Proof.
  induction s as [|a s IH]; simpl; [reflexivity|].
  destruct (is_empty (rstrip p s) && p a) eqn:E; [reflexivity|].
  simpl. rewrite IH, E. reflexivity.
Qed.

Lemma lstrip_head (p : ascii -> bool) (s : string) (a : ascii) (r : string) :
  lstrip p s = String a r -> p a = false.
Proof.
  induction s as [|b s IH]; simpl; [discriminate|].
  destruct (p b) eqn:E; [exact IH|].
  intros H. injection H as -> _. exact E.
Qed.

Lemma rstrip_head (p : ascii -> bool) (a b : ascii) (s r : string) :
  rstrip p (String a s) = String b r -> b = a.
Proof.
  simpl. destruct (is_empty (rstrip p s) && p a); [discriminate|].
  intros H. injection H as -> _. reflexivity.
Qed.

Lemma strip_by_idem (p : ascii -> bool) (s : string) :
  strip_by p (strip_by p s) = strip_by p s.
Proof.
  unfold strip_by.
  destruct (lstrip p s) as [|a t] eqn:Et; [reflexivity|].
  destruct (rstrip p (String a t)) as [|b u] eqn:Eu; [reflexivity|].
  pose proof (rstrip_head _ _ _ Eu) as ->.
  pose proof (lstrip_head _ _ Et) as Ha.
  cbn [lstrip]. rewrite Ha, <- Eu. apply rstrip_idem.
Qed.

Lemma strip_idem (s : string) : strip (strip s) = strip s.
Proof. apply strip_by_idem. Qed.

Lemma lstrip_without (c : ascii) (s : string) :
  contains_char c s = false -> lstrip (is_char c) s = s.
Proof.
  destruct s as [|a s]; simpl; [reflexivity|].
  unfold is_char. intros H. apply orb_false_elim in H as [-> _].
  reflexivity.
Qed.

Lemma rstrip_without (c : ascii) (s : string) :
  contains_char c s = false -> rstrip (is_char c) s = s.
Proof.
  induction s as [|a s IH]; simpl; intros H; [reflexivity|].
  apply orb_false_elim in H as [Ha Hs].
  rewrite (IH Hs). unfold is_char. rewrite Ha, andb_false_r. reflexivity.
Qed.

Lemma strip_by_without (c : ascii) (s : string) :
  contains_char c s = false -> strip_by (is_char c) s = s.
Proof.
  intros H. unfold strip_by.
  rewrite (lstrip_without _ _ H). apply rstrip_without, H.
Qed.

End PyStrFacts.

(** ** Facts on the DataFrame constructor and on the conversion *)

Module TableFacts.
Import PyStr PyStrFacts Table.

Lemma lines_of_not_nil (s : string) : lines_of s <> [].
Proof. apply split_not_nil. Qed.

Lemma length_le_width (data : list (list string)) (row : list string) :
  In row data -> List.length row <= width data.
Proof.
  unfold width. induction data as [|r data IH]; simpl; [tauto|].
  intros [-> | H]; [lia|]. specialize (IH H). lia.
Qed.

Lemma fill_length (k : nat) (row : list string) :
  List.length row <= k -> List.length (fill k row) = k.
Proof.
  intros H. unfold fill.
  rewrite length_app, length_map, repeat_length. lia.
Qed.

Lemma fill_exact (row : list string) :
  fill (List.length row) row = map Some row.
Proof.
  unfold fill. rewrite Nat.sub_diag. simpl. apply app_nil_r.
Qed.

(** What a successful construction says of its arguments. *)
Lemma pd_DataFrame_Ok (data : list (list string)) (header : list string)
    (df : DataFrame) :
  pd_DataFrame data header = Ok df ->
  columns df = header /\
  rows df = map (fill (List.length header)) data /\
  (data <> [] -> width data = List.length header).
Proof.
  unfold pd_DataFrame. destruct data as [|r data].
  - intros H. injection H as <-. simpl. repeat split; congruence.
  - destruct (List.length header =? width (r :: data))%nat eqn:E;
      [|discriminate].
    apply Nat.eqb_eq in E. intros H. injection H as <-.
    cbn [columns rows]. rewrite <- E. repeat split; auto.
Qed.

(** When the widest row is not as wide as the header the constructor
    raises. *)
Lemma pd_DataFrame_Raise (data : list (list string)) (header : list string) :
  data <> [] -> width data <> List.length header ->
  pd_DataFrame data header
  = Raise (ColumnsMismatch (List.length header) (width data)).
Proof.
  intros Hd Hw. unfold pd_DataFrame. destruct data as [|r data]; [congruence|].
  destruct (List.length header =? width (r :: data))%nat eqn:E;
    [|reflexivity].
  apply Nat.eqb_eq in E. congruence.
Qed.

Lemma markdown_to_dataframe_lines (s l0 l1 : string) (rest : list string) :
  lines_of s = l0 :: l1 :: rest ->
  markdown_to_dataframe s = pd_DataFrame (map cells rest) (cells l0).
Proof.
  unfold markdown_to_dataframe. intros ->. reflexivity.
Qed.

Lemma cells_plain (line : string) :
  contains_char pipe line = false -> cells line = [strip line].
Proof.
  intros H. unfold cells.
  rewrite (strip_by_without _ _ H), (split_without _ _ H). reflexivity.
Qed.

End TableFacts.

(** ** The conversion of the Markdown answer *)

Module TableClaims.
Import PyStr PyStrFacts Table TableFacts TableExamples SpecShapes.

(** C1, as stated, fails: the text of scenario 2 has no line that
    starts and ends with a pipe, and the conversion does not fail on
    it; it returns a frame whose only column is the text itself. *)
Lemma no_table_text_is_converted :
  spec_no_header_line scenario2 = true /\
  markdown_to_dataframe scenario2 = Ok no_table_frame /\
  ~ (exists e, markdown_to_dataframe scenario2 = Raise e).
Proof.
  split; [reflexivity|]. split; [reflexivity|].
  intros [e H]. vm_compute in H. discriminate.
Qed.

(** C1 (amended): the first line of the stripped answer is the header
    whatever its shape, and nothing tests for a table.  For every
    answer that is a single line once stripped, the conversion
    succeeds with the cells of that line as columns and no row; when
    the line has no pipe either, the only column is the stripped
    answer. *)
Theorem single_line_is_header (s : string) :
  contains_char newline (strip s) = false ->
  markdown_to_dataframe s = Ok (mkDataFrame (cells (strip s)) []) /\
  (contains_char pipe (strip s) = false ->
   markdown_to_dataframe s = Ok (mkDataFrame [strip s] [])).
Proof.
  intros Hnl.
  assert (E : markdown_to_dataframe s = Ok (mkDataFrame (cells (strip s)) [])).
  { unfold markdown_to_dataframe, lines_of.
    rewrite (split_without _ _ Hnl). reflexivity. }
  split; [exact E|].
  intros Hp. rewrite E, (cells_plain _ Hp), strip_idem. reflexivity.
Qed.

Lemma single_line_is_header_witness :
  contains_char newline (strip scenario2) = false /\
  markdown_to_dataframe scenario2 = Ok (mkDataFrame (cells (strip scenario2)) []) /\
  markdown_to_dataframe scenario2 = Ok (mkDataFrame [strip scenario2] []).
Proof.
  assert (Hnl : contains_char newline (strip scenario2) = false)
    by reflexivity.
  destruct (single_line_is_header scenario2 Hnl) as [H1 H2].
  split; [exact Hnl|]. split; [exact H1|]. apply H2. reflexivity.
Defined.

(** C2, as stated, fails: in scenario 3 the first line has the shape
    of a header, the second is not a separator line, and the
    conversion succeeds with the two columns and no row. *)
Lemma missing_separator_is_converted :
  lines_of scenario3 = ["| Name | Years |"; "Alice, 5 years"] /\
  spec_header_shaped "| Name | Years |" = true /\
  spec_separator_shaped "Alice, 5 years" = false /\
  markdown_to_dataframe scenario3 = Ok (mkDataFrame ["Name"; "Years"] []) /\
  ~ (exists e, markdown_to_dataframe scenario3 = Raise e).
Proof.
  repeat (split; [reflexivity|]).
  intros [e H]. vm_compute in H. discriminate.
Qed.

(** C2 (amended): the second line of the stripped answer is skipped
    without being examined.  Two answers that differ only in that
    line are converted alike, and an answer of exactly two lines is
    converted to the frame of the first line's cells with no row,
    whatever the second line is. *)
Theorem second_line_never_examined
    (s s' l0 l1 l1' : string) (rest : list string) :
  lines_of s = l0 :: l1 :: rest ->
  lines_of s' = l0 :: l1' :: rest ->
  markdown_to_dataframe s = markdown_to_dataframe s' /\
  (rest = [] -> markdown_to_dataframe s = Ok (mkDataFrame (cells l0) [])).
Proof.
  intros Hs Hs'.
  rewrite (markdown_to_dataframe_lines _ Hs),
          (markdown_to_dataframe_lines _ Hs').
  split; [reflexivity|]. intros ->. reflexivity.
Qed.

Lemma second_line_never_examined_witness :
  lines_of scenario3 = ["| Name | Years |"; "Alice, 5 years"] /\
  lines_of with_separator = ["| Name | Years |"; "|---|---|"] /\
  markdown_to_dataframe scenario3 = markdown_to_dataframe with_separator /\
  markdown_to_dataframe scenario3 = Ok (mkDataFrame (cells "| Name | Years |") []).
Proof.
  assert (H3 : lines_of scenario3 = ["| Name | Years |"; "Alice, 5 years"])
    by reflexivity.
  assert (Hw : lines_of with_separator = ["| Name | Years |"; "|---|---|"])
    by reflexivity.
  destruct (second_line_never_examined scenario3 with_separator H3 Hw)
    as [H1 H2].
  split; [exact H3|]. split; [exact Hw|]. split; [exact H1|].
  apply H2. reflexivity.
Defined.

(** C3, as stated, fails: under the two-column header of scenario 4 the
    line "| Alice |" gives the one-cell row ["Alice"], not
    ["Alice"; ""], and the frame is refused; a three-cell row is not cut
    to two cells either, the frame is refused as well. *)
Lemma short_row_is_not_padded :
  header_of (lines_of scenario4) = ["Name"; "Years"] /\
  data_of (lines_of scenario4) = [["Alice"]] /\
  markdown_to_dataframe scenario4 = Raise (ColumnsMismatch 2 1) /\
  data_of (lines_of long_row) = [["Alice"; "5"; "x"]] /\
  markdown_to_dataframe long_row = Raise (ColumnsMismatch 2 3).
Proof. repeat split; reflexivity. Qed.

(** C3 (amended): a data line gives exactly its own trimmed cells,
    whatever the number of columns; nothing pads a row with empty
    strings and nothing truncates one.  A line with more cells than the
    header makes the construction of the frame raise, and so does a
    table all of whose data lines have fewer cells than the header; in
    a frame that is built, a shorter row is completed on the right with
    missing values. *)
Theorem rows_are_not_normalized (s l0 l1 : string) (rest : list string) :
  lines_of s = l0 :: l1 :: rest ->
  data_of (lines_of s) = map cells rest /\
  ((exists line, In line rest /\
                 List.length (cells l0) < List.length (cells line)) ->
   exists e, markdown_to_dataframe s = Raise e) /\
  (rest <> [] ->
   (forall line, In line rest ->
                 List.length (cells line) < List.length (cells l0)) ->
   exists e, markdown_to_dataframe s = Raise e) /\
  (forall df, markdown_to_dataframe s = Ok df ->
   rows df = map (fun line =>
                    map Some (cells line)
                    ++ repeat None (List.length (cells l0)
                                    - List.length (cells line))) rest).
Proof.
  intros Hs. rewrite (markdown_to_dataframe_lines _ Hs), Hs.
  split; [reflexivity|]. split; [|split].
  - intros (line & Hin & Hlt). eexists. apply pd_DataFrame_Raise.
    + destruct rest; [destruct Hin | discriminate].
    + pose proof (length_le_width (map cells rest) (cells line)
                    (in_map cells _ _ Hin)). lia.
  - intros Hne Hall. eexists. apply pd_DataFrame_Raise.
    + destruct rest; [congruence | discriminate].
    + assert (width (map cells rest) < List.length (cells l0)); [|lia].
      unfold width. apply list_max_lt.
      * destruct rest; [congruence | discriminate].
      * rewrite map_map. apply Forall_forall. intros n Hn.
        apply in_map_iff in Hn as (line & <- & Hin). apply Hall, Hin.
  - intros df Hdf. apply pd_DataFrame_Ok in Hdf as (_ & -> & _).
    rewrite map_map. reflexivity.
Qed.

Lemma rows_are_not_normalized_witness :
  lines_of scenario4 = ["| Name | Years |"; "|---|---|"; "| Alice |"] /\
  data_of (lines_of scenario4) = map cells ["| Alice |"] /\
  (exists e, markdown_to_dataframe scenario4 = Raise e).
Proof.
  assert (H : lines_of scenario4
              = ["| Name | Years |"; "|---|---|"; "| Alice |"])
    by reflexivity.
  destruct (rows_are_not_normalized scenario4 H) as (H1 & _ & H3 & _).
  split; [exact H|]. split; [exact H1|].
  apply H3; [discriminate|].
  intros line [<- | []]. vm_compute. lia.
Defined.

(** C4, as stated, fails: in [wide_neighbour] the line "| Alice | 5 |"
    has exactly as many cells as the header, but the line below it has
    one more, so the construction of the frame raises and no row, the
    full one included, reaches a table. *)
Lemma full_row_is_lost_beside_a_wide_line :
  lines_of wide_neighbour
  = ["| Name | Years |"; "|---|---|"; "| Alice | 5 |"; "| Bob | 3 | x |"] /\
  header_of (lines_of wide_neighbour) = ["Name"; "Years"] /\
  cells "| Alice | 5 |" = ["Alice"; "5"] /\
  List.length (cells "| Alice | 5 |")
  = List.length (header_of (lines_of wide_neighbour)) /\
  markdown_to_dataframe wide_neighbour = Raise (ColumnsMismatch 2 3) /\
  ~ (exists df, markdown_to_dataframe wide_neighbour = Ok df).
Proof.
  repeat (split; [reflexivity|]).
  intros [df H]. vm_compute in H. discriminate.
Qed.

(** C4 (amended): when the frame is built, its columns are the trimmed
    cells of the first line, and every data line that has as many cells
    as there are columns is the row of its trimmed cells, unchanged and
    in order; scenario 1 gives the columns Name, Years and the rows
    Alice, 5 and Bob, 3. *)
Theorem full_rows_are_verbatim :
  (forall (s : string) (df : DataFrame),
      markdown_to_dataframe s = Ok df ->
      columns df = header_of (lines_of s) /\
      forall (i : nat) (line : string),
        nth_error (skipn 2 (lines_of s)) i = Some line ->
        List.length (cells line) = List.length (columns df) ->
        nth_error (rows df) i = Some (map Some (cells line))) /\
  markdown_to_dataframe scenario1
  = Ok (mkDataFrame ["Name"; "Years"]
          [[Some "Alice"; Some "5"]; [Some "Bob"; Some "3"]]).
Proof.
  split; [|reflexivity].
  intros s df Hdf. unfold markdown_to_dataframe in Hdf.
  apply pd_DataFrame_Ok in Hdf as (Hc & Hr & _).
  split; [exact Hc|]. intros i line Hi Hlen.
  rewrite Hr. unfold data_of. rewrite map_map.
  rewrite (map_nth_error _ _ _ Hi). rewrite <- Hc, <- Hlen, fill_exact.
  reflexivity.
Qed.

Lemma full_rows_are_verbatim_witness :
  exists df, markdown_to_dataframe scenario1 = Ok df /\
    columns df = ["Name"; "Years"] /\
    nth_error (rows df) 1 = Some (map Some (cells "| Bob | 3 |")).
Proof.
  eexists. split; [reflexivity|].
  destruct (proj1 full_rows_are_verbatim scenario1 _ eq_refl) as [Hc Hr].
  split; [exact Hc|].
  apply (Hr 1 "| Bob | 3 |"); reflexivity.
Defined.

(** C5, as stated, fails: in [trailing] the line at index 3 is blank,
    where the specification ends the table, and the lines after it do
    not all start and end with a pipe; yet the blank line and every
    line after it give a row of the frame. *)
Lemma rows_continue_after_blank_line :
  nth_error (lines_of trailing) 3 = Some EmptyString /\
  spec_blank EmptyString = true /\
  spec_header_shaped "End of table." = false /\
  markdown_to_dataframe trailing
  = Ok (mkDataFrame ["A"]
          [[Some "x"]; [Some EmptyString]; [Some "y"];
           [Some "End of table."]]).
Proof. repeat split; reflexivity. Qed.

(** C5 (amended): the data rows come from every line of the stripped
    answer from index 2 to the end of the input, one row per line, in
    order; nothing stops the loop at a blank line or at a line without
    outer pipes.  A blank line gives the row of one empty cell, a line
    without any pipe the row of its trimmed text, and a frame that is
    built has as many rows as there are lines from index 2 on. *)
Theorem every_later_line_is_a_row (s : string) :
  (forall i : nat,
      nth_error (data_of (lines_of s)) i
      = option_map cells (nth_error (lines_of s) (2 + i))) /\
  cells EmptyString = [EmptyString] /\
  (forall line : string,
      contains_char pipe line = false -> cells line = [strip line]) /\
  (forall df : DataFrame,
      markdown_to_dataframe s = Ok df ->
      List.length (rows df) = List.length (lines_of s) - 2).
Proof.
  split; [|split; [reflexivity|split; [exact cells_plain|]]].
  - intros i. unfold data_of.
    rewrite nth_error_map, nth_error_skipn. reflexivity.
  - intros df Hdf. unfold markdown_to_dataframe in Hdf.
    apply pd_DataFrame_Ok in Hdf as (_ & -> & _).
    unfold data_of. rewrite !length_map, length_skipn. reflexivity.
Qed.

(** C6: in every frame the conversion returns, each row has exactly as
    many cells as there are columns. *)
Theorem rows_match_columns (s : string) (df : DataFrame) :
  markdown_to_dataframe s = Ok df ->
  Forall (fun row => List.length row = List.length (columns df)) (rows df).
Proof.
  unfold markdown_to_dataframe. intros Hdf.
  apply pd_DataFrame_Ok in Hdf as (Hc & Hr & Hw).
  rewrite Hr, Hc. apply Forall_forall. intros row Hin.
  apply in_map_iff in Hin as (r & <- & Hr').
  apply fill_length. rewrite <- Hw.
  - apply length_le_width, Hr'.
  - intros E. rewrite E in Hr'. destruct Hr'.
Qed.

Lemma rows_match_columns_witness :
  exists df, markdown_to_dataframe ragged = Ok df /\
    rows df = [[Some "Alice"; Some "5"]; [Some "Bob"; None]] /\
    Forall (fun row => List.length row = List.length (columns df)) (rows df).
Proof.
  eexists. split; [reflexivity|]. split; [reflexivity|].
  apply (rows_match_columns ragged). reflexivity.
Defined.

End TableClaims.

(** ** Facts on the script *)

Module AppFacts.
Import PyStr Table App.




Lemma extraction_loop_unfold (files : list UploadedFile) (acc : list string) :
  extraction_loop files acc
  = (acc ++ flat_map kept files, flat_map iteration_events files).
Proof.
  revert acc. induction files as [|pdf files IH]; intros acc.
  - simpl. unfold ret. rewrite app_nil_r. reflexivity.
  - cbn [extraction_loop flat_map]. unfold bind, emit, ret. cbn [fst snd].
    change (truthy (fst (extract_text_from_pdf (getvalue pdf))))
      with (extracted pdf).
    unfold kept at 1, iteration_events at 1, events.
    destruct (extracted pdf) as [t|]; cbn [fst snd]; rewrite IH;
      cbn [fst snd]; f_equal; simpl; rewrite <- ?app_assoc; reflexivity.
Qed.

Lemma llm_calls_app (log1 log2 : list Event) :
  llm_calls (log1 ++ log2) = llm_calls log1 ++ llm_calls log2.
Proof. apply flat_map_app. Qed.

Lemma extract_calls_nothing (pdf_file : Pdf) :
  llm_calls (events (extract_text_from_pdf pdf_file)) = [].
Proof.
  unfold extract_text_from_pdf.
  destruct pdf_file as [pages|e]; [destruct (read_pages pages _)|];
    reflexivity.
Qed.

Lemma iteration_calls_nothing (pdf : UploadedFile) :
  llm_calls (iteration_events pdf) = [].
Proof.
  unfold iteration_events. cbn [llm_calls flat_map app].
  fold (llm_calls (events (extract_text_from_pdf (getvalue pdf))
                   ++ match extracted pdf with
                      | Some _ => []
                      | None => [skip_warning pdf]
                      end)).
  rewrite llm_calls_app, extract_calls_nothing.
  destruct (extracted pdf); reflexivity.
Qed.

Lemma loop_calls_nothing (files : list UploadedFile) :
  llm_calls (flat_map iteration_events files) = [].
Proof.
  induction files as [|pdf files IH]; [reflexivity|].
  cbn [flat_map]. rewrite llm_calls_app, iteration_calls_nothing, IH.
  reflexivity.
Qed.

Lemma display_calls_nothing (generated_content : string) :
  llm_calls (events (display generated_content)) = [].
Proof.
  unfold display.
  destruct (markdown_to_dataframe generated_content) as [df|e];
    [destruct (has_duplicates (columns df))|]; reflexivity.
Qed.

Lemma generate_calls (model : string -> result string string)
    (resume_texts : list string) :
  llm_calls (events (generate_table_from_resumes model resume_texts))
  = match resume_texts with
    | [] => []
    | _ :: _ => [build_prompt resume_texts]
    end.
Proof.
  destruct resume_texts as [|t ts]; [reflexivity|].
  cbn [generate_table_from_resumes].
  destruct (model (build_prompt (t :: ts))); reflexivity.
Qed.

(** The events of a run of the analysis, by what the loop kept. *)
Lemma analysis_events (model : string -> result string string)
    (uploaded_files : list UploadedFile) :
  events (analysis model uploaded_files)
  = st_spinner "Reading PDFs and analyzing with Gemini... Please wait."
    :: flat_map iteration_events uploaded_files
    ++ match flat_map kept uploaded_files with
       | [] => []
       | t :: ts =>
           st_success "Successfully extracted text from all PDFs. Now generating the table..."
           :: events (generate_table_from_resumes model (t :: ts))
           ++ events (display
                        (value (generate_table_from_resumes model (t :: ts))))
       end.
Proof.
  unfold analysis. rewrite extraction_loop_unfold.
  unfold bind, emit, events, value. cbn [fst snd app].
  destruct (flat_map kept uploaded_files); reflexivity.
Qed.

Lemma analysis_calls (model : string -> result string string)
    (uploaded_files : list UploadedFile) :
  llm_calls (events (analysis model uploaded_files))
  = match flat_map kept uploaded_files with
    | [] => []
    | t :: ts => [build_prompt (t :: ts)]
    end.
Proof.
  rewrite analysis_events.
  change (llm_calls (?e :: ?l)) with (llm_calls [e] ++ llm_calls l).
  rewrite llm_calls_app, loop_calls_nothing.
  destruct (flat_map kept uploaded_files) as [|t ts]; [reflexivity|].
  change (llm_calls (?e :: ?l)) with (llm_calls [e] ++ llm_calls l).
  rewrite llm_calls_app, generate_calls, display_calls_nothing.
  reflexivity.
Qed.

Lemma main_calls (model : string -> result string string)
    (uploaded_files : list UploadedFile) (button : bool) :
  llm_calls (events (main model uploaded_files button))
  = if button
    then match flat_map kept uploaded_files with
         | [] => []
         | t :: ts => [build_prompt (t :: ts)]
         end
    else [].
Proof.
  unfold main, bind, events. cbn [snd emit].
  rewrite llm_calls_app, app_nil_r.
  destruct uploaded_files as [|pdf files]; [destruct button; reflexivity|].
  destruct button; [|reflexivity].
  apply analysis_calls.
Qed.

Lemma kept_of_None (pdf : UploadedFile) :
  value (extract_text_from_pdf (getvalue pdf)) = None -> kept pdf = [].
Proof. unfold kept, extracted. intros ->. reflexivity. Qed.

Lemma kept_of_empty (pdf : UploadedFile) :
  value (extract_text_from_pdf (getvalue pdf)) = Some EmptyString ->
  kept pdf = [].
Proof. unfold kept, extracted. intros ->. reflexivity. Qed.

Lemma kept_nil_warns (pdf : UploadedFile) :
  kept pdf = [] -> In (skip_warning pdf) (iteration_events pdf).
Proof.
  unfold kept, iteration_events.
  destruct (extracted pdf); [discriminate|]. intros _.
  right. apply in_or_app. right. left. reflexivity.
Qed.

Lemma kept_nil_warnings (pdf : UploadedFile) :
  kept pdf = [] ->
  warnings (iteration_events pdf)
  = ["Could not extract text from " ++ backquoted (name pdf)
     ++ ". Skipping."]%string.
Proof.
  unfold kept, iteration_events, warnings.
  destruct (extracted pdf); [discriminate|]. intros _.
  cbn [flat_map app]. rewrite flat_map_app.
  replace (flat_map _ (events (extract_text_from_pdf (getvalue pdf))))
    with (@nil string); [reflexivity|].
  unfold extract_text_from_pdf.
  destruct (getvalue pdf) as [pages|e]; [destruct (read_pages pages _)|];
    reflexivity.
Qed.

End AppFacts.

(** ** The prompt and the orchestration *)

Module AppClaims.
Import PyStr Table App AppFacts.



(** C8: when the loop has kept no text, the script makes no call to the
    model.  What it reports is the skip warning of every uploaded file
    and then nothing but its footer; [generate_table_from_resumes] is
    not reached, and on an empty list it would itself return
    "No resume text provided." without calling the model. *)
Theorem no_text_no_model_call (model : string -> result string string)
    (uploaded_files : list UploadedFile) (button : bool) :
  value (extraction_loop uploaded_files []) = [] ->
  llm_calls (events (main model uploaded_files button)) = [] /\
  generate_table_from_resumes model [] = ("No resume text provided.", []) /\
  Forall (fun pdf => In (skip_warning pdf)
                        (events (analysis model uploaded_files)))
         uploaded_files /\
  events (analysis model uploaded_files)
  = st_spinner "Reading PDFs and analyzing with Gemini... Please wait."
    :: flat_map iteration_events uploaded_files.
Proof.
  rewrite extraction_loop_unfold. cbn [value fst app]. intros Hkept.
  split; [|split; [reflexivity|]].
  - rewrite main_calls, Hkept. destruct button; reflexivity.
  - rewrite analysis_events, Hkept, app_nil_r. split; [|reflexivity].
    apply Forall_forall. intros pdf Hin. right.
    apply in_flat_map. exists pdf. split; [exact Hin|].
    apply kept_nil_warns.
    destruct (kept pdf) as [|t ts] eqn:E; [reflexivity|].
    assert (In t (flat_map kept uploaded_files)) as Ht.
    { apply in_flat_map. exists pdf. split; [exact Hin|].
      rewrite E. left. reflexivity. }
    rewrite Hkept in Ht. destruct Ht.
Qed.

Lemma no_text_no_model_call_witness :
  value (extraction_loop [broken_pdf; empty_pdf] []) = [] /\
  llm_calls (events (main canned_model [broken_pdf; empty_pdf] true)) = [] /\
  events (main canned_model [broken_pdf; empty_pdf] true)
  = [st_spinner "Reading PDFs and analyzing with Gemini... Please wait.";
     st_info "Processing: `broken.pdf`";
     st_error "Error reading PDF file: EOF marker not found";
     st_warning "Could not extract text from `broken.pdf`. Skipping.";
     st_info "Processing: `empty.pdf`";
     st_warning "Could not extract text from `empty.pdf`. Skipping.";
     st_markdown "---"; st_markdown "Powered by Google Gemini"].
Proof.
  assert (H : value (extraction_loop [broken_pdf; empty_pdf] []) = [])
    by reflexivity.
  destruct (no_text_no_model_call canned_model [broken_pdf; empty_pdf]
              true H) as (Hcalls & _).
  split; [exact H|]. split; [exact Hcalls | reflexivity].
Defined.

(** C9: a file whose extraction fails is skipped with a warning and
    nothing else changes: the texts kept are those of the files before
    it followed by those of the files after it, the events of the other
    files are all there, and the model is called as if the file had not
    been uploaded.  With three uploads of which the second fails and
    the others give a text, the model is called once, with the prompt
    built from those two texts. *)
Theorem failed_file_is_skipped (model : string -> result string string) :
  (forall (before after : list UploadedFile) (pdf : UploadedFile),
      value (extract_text_from_pdf (getvalue pdf)) = None ->
      value (extraction_loop (before ++ pdf :: after) [])
      = value (extraction_loop before []) ++ value (extraction_loop after [])
      /\
      events (extraction_loop (before ++ pdf :: after) [])
      = events (extraction_loop before []) ++ iteration_events pdf
        ++ events (extraction_loop after []) /\
      In (skip_warning pdf) (iteration_events pdf) /\
      llm_calls (events (main model (before ++ pdf :: after) true))
      = llm_calls (events (main model (before ++ after) true))) /\
  (forall (f1 f2 f3 : UploadedFile) (t1 t3 : string),
      extracted f1 = Some t1 ->
      value (extract_text_from_pdf (getvalue f2)) = None ->
      extracted f3 = Some t3 ->
      value (extraction_loop [f1; f2; f3] []) = [t1; t3] /\
      llm_calls (events (main model [f1; f2; f3] true))
      = [build_prompt [t1; t3]]).
Proof.
  split.
  - intros before after pdf Hfail.
    pose proof (kept_of_None pdf Hfail) as Hk.
    rewrite !extraction_loop_unfold, !main_calls. unfold value, events.
    cbn [fst snd app]. rewrite !flat_map_app. cbn [flat_map]. rewrite Hk.
    repeat split. apply kept_nil_warns, Hk.
  - intros f1 f2 f3 t1 t3 H1 H2 H3.
    rewrite extraction_loop_unfold, main_calls. unfold value.
    cbn [fst flat_map app]. unfold kept at 1 3 4 6.
    rewrite (kept_of_None f2 H2), H1, H3. split; reflexivity.
Qed.

Lemma failed_file_is_skipped_witness :
  value (extract_text_from_pdf (getvalue broken_pdf)) = None /\
  value (extraction_loop [alice_pdf; broken_pdf; bob_pdf] [])
  = ["Alice, 5 years of Rust"; "Bob, 3 years"] /\
  llm_calls (events (main canned_model [alice_pdf; broken_pdf; bob_pdf] true))
  = [build_prompt ["Alice, 5 years of Rust"; "Bob, 3 years"]].
Proof.
  assert (H : value (extract_text_from_pdf (getvalue broken_pdf)) = None)
    by reflexivity.
  split; [exact H|].
  apply (proj2 (failed_file_is_skipped canned_model)
           alice_pdf broken_pdf bob_pdf); [reflexivity | exact H | reflexivity].
Defined.

(** C10: a file whose extraction returns the empty string is handled by
    the loop as a file whose extraction fails: it adds nothing to the
    texts kept, its skip warning is issued, the other files are
    processed, and the texts, the warnings and the call to the model
    are those of the same uploads with a failing file in its place. *)
Theorem empty_text_is_skipped (model : string -> result string string)
    (before after : list UploadedFile) (pdf failed : UploadedFile) :
  value (extract_text_from_pdf (getvalue pdf)) = Some EmptyString ->
  value (extract_text_from_pdf (getvalue failed)) = None ->
  name failed = name pdf ->
  value (extraction_loop (before ++ pdf :: after) [])
  = value (extraction_loop before []) ++ value (extraction_loop after []) /\
  In (skip_warning pdf) (events (extraction_loop (before ++ pdf :: after) []))
  /\
  value (extraction_loop (before ++ pdf :: after) [])
  = value (extraction_loop (before ++ failed :: after) []) /\
  warnings (events (extraction_loop (before ++ pdf :: after) []))
  = warnings (events (extraction_loop (before ++ failed :: after) [])) /\
  llm_calls (events (main model (before ++ pdf :: after) true))
  = llm_calls (events (main model (before ++ failed :: after) true)).
Proof.
  intros Hempty Hfail Hname.
  pose proof (kept_of_empty pdf Hempty) as Hk.
  pose proof (kept_of_None failed Hfail) as Hk'.
  rewrite !extraction_loop_unfold, !main_calls. unfold value, events.
  cbn [fst snd app]. rewrite !flat_map_app. cbn [flat_map].
  rewrite Hk, Hk'. split; [reflexivity|]. split; [|split; [reflexivity|]].
  - apply in_or_app. right. apply in_or_app. left.
    apply kept_nil_warns, Hk.
  - split; [|reflexivity].
    unfold warnings. rewrite !flat_map_app.
    fold (warnings (iteration_events pdf)).
    fold (warnings (iteration_events failed)).
    rewrite (kept_nil_warnings pdf Hk), (kept_nil_warnings failed Hk'), Hname.
    reflexivity.
Qed.

Lemma empty_text_is_skipped_witness :
  value (extract_text_from_pdf (getvalue scanned_pdf)) = Some EmptyString /\
  value (extraction_loop [alice_pdf; scanned_pdf; bob_pdf] [])
  = ["Alice, 5 years of Rust"; "Bob, 3 years"] /\
  warnings (events (extraction_loop [alice_pdf; scanned_pdf; bob_pdf] []))
  = ["Could not extract text from `broken.pdf`. Skipping."].
Proof.
  assert (He : value (extract_text_from_pdf (getvalue scanned_pdf))
               = Some EmptyString) by reflexivity.
  assert (Hf : value (extract_text_from_pdf (getvalue broken_pdf)) = None)
    by reflexivity.
  destruct (empty_text_is_skipped canned_model [alice_pdf] [bob_pdf]
              scanned_pdf broken_pdf He Hf eq_refl) as (H1 & _ & _ & H4 & _).
  split; [exact He|]. split.
  - etransitivity; [exact H1 | reflexivity].
  - etransitivity; [exact H4 | reflexivity].
Defined.

End AppClaims.

(** ** Further facts on the string primitives *)

Module PyStrProps.
Import PyStr PyStrFacts Layout.

Lemma join_cons_char (sep : string) (a : ascii) (w : string)
    (ws : list string) :
  join sep (String a w :: ws) = String a (join sep (w :: ws)).
Proof. destruct ws; reflexivity. Qed.

Lemma join_cons (sep x : string) (y : string) (ys : list string) :
  join sep (x :: y :: ys) = (x ++ sep ++ join sep (y :: ys))%string.
Proof. reflexivity. Qed.

Lemma append_assoc (a b c : string) :
  ((a ++ b) ++ c = a ++ (b ++ c))%string.
Proof. induction a as [|x a IH]; simpl; [reflexivity | now rewrite IH]. Qed.

Lemma append_empty_r (a : string) : (a ++ EmptyString)%string = a.
Proof. induction a as [|x a IH]; simpl; [reflexivity | now rewrite IH]. Qed.

Lemma contains_char_app (c : ascii) (a b : string) :
  contains_char c (a ++ b)
  = contains_char c a || contains_char c b.
Proof.
  induction a as [|x a IH]; simpl; [reflexivity|].
  rewrite IH. apply orb_assoc.
Qed.

Lemma split_app_sep (c : ascii) (x y : string) :
  contains_char c x = false ->
  split c (x ++ String c y) = x :: split c y.
Proof.
  induction x as [|a x IH]; simpl; intros H.
  - rewrite Ascii.eqb_refl. reflexivity.
  - apply orb_false_elim in H as [Ha Hx]. rewrite Ha, (IH Hx). reflexivity.
Qed.

Lemma split_pieces_free (c : ascii) (s : string) :
  Forall (fun w => contains_char c w = false) (split c s).
Proof.
  induction s as [|a s IH]; simpl.
  - constructor; [reflexivity | constructor].
  - destruct (Ascii.eqb a c) eqn:E.
    + constructor; [reflexivity | exact IH].
    + destruct (split c s) as [|w ws].
      * constructor; [simpl; now rewrite E | constructor].
      * inversion IH as [|? ? Hw Hws]; subst.
        constructor; [simpl; now rewrite E, Hw | exact Hws].
Qed.

Lemma only_chars_app (p : ascii -> bool) (a b : string) :
  only_chars p (a ++ b) = only_chars p a && only_chars p b.
Proof.
  induction a as [|x a IH]; simpl; [reflexivity|].
  rewrite IH. apply andb_assoc.
Qed.

Lemma lstrip_parts (p : ascii -> bool) (s : string) :
  exists l, s = (l ++ lstrip p s)%string /\ only_chars p l = true.
Proof.
  induction s as [|a s (l & Hl & Hp)]; simpl.
  - exists EmptyString. split; reflexivity.
  - destruct (p a) eqn:E.
    + exists (String a l). simpl. rewrite E, Hp, <- Hl. split; reflexivity.
    + exists EmptyString. split; reflexivity.
Qed.

Lemma rstrip_parts (p : ascii -> bool) (s : string) :
  exists r, s = (rstrip p s ++ r)%string /\ only_chars p r = true.
Proof.
  induction s as [|a s (r & Hr & Hp)]; simpl.
  - exists EmptyString. split; reflexivity.
  - destruct (rstrip p s) as [|b t] eqn:Et; simpl.
    + simpl in Hr. subst r. destruct (p a) eqn:E.
      * exists (String a s). simpl. rewrite E, Hp. split; reflexivity.
      * exists s. split; [reflexivity | exact Hp].
    + exists r. simpl in Hr. rewrite <- Hr. split; [reflexivity | exact Hp].
Qed.

Lemma rstrip_only (p : ascii -> bool) (w : string) :
  only_chars p w = true -> rstrip p w = EmptyString.
Proof.
  induction w as [|a w IH]; simpl; intros H; [reflexivity|].
  apply andb_prop in H as [Ha Hw]. rewrite (IH Hw), Ha. reflexivity.
Qed.

Lemma lstrip_only (p : ascii -> bool) (w s : string) :
  only_chars p w = true -> lstrip p (w ++ s) = lstrip p s.
Proof.
  induction w as [|a w IH]; simpl; intros H; [reflexivity|].
  apply andb_prop in H as [Ha Hw]. rewrite Ha. apply IH, Hw.
Qed.

Lemma rstrip_app_only (p : ascii -> bool) (s w : string) :
  only_chars p w = true -> rstrip p (s ++ w) = rstrip p s.
Proof.
  intros H. induction s as [|a s IH]; simpl.
  - apply rstrip_only, H.
  - rewrite IH. reflexivity.
Qed.

Lemma is_empty_app (a b : string) :
  is_empty b = false -> is_empty (a ++ b) = false.
Proof. destruct a; simpl; auto. Qed.

Lemma rstrip_app_keep (p : ascii -> bool) (x y : string) :
  is_empty (rstrip p y) = false ->
  rstrip p (x ++ y) = (x ++ rstrip p y)%string.
Proof.
  intros H. induction x as [|a x IH]; simpl; [reflexivity|].
  rewrite IH, (is_empty_app _ _ H). reflexivity.
Qed.

Lemma rstrip_last (p : ascii -> bool) (s : string) :
  last_is (fun a => negb (p a)) s = true -> rstrip p s = s.
Proof.
  induction s as [|a s IH]; [discriminate|].
  destruct s as [|b s].
  - simpl. intros H. apply negb_true_iff in H. rewrite H. reflexivity.
  - intros H. change (last_is (fun a => negb (p a)) (String b s) = true) in H.
    specialize (IH H). cbn [rstrip] in *. rewrite IH. reflexivity.
Qed.

Lemma last_is_strip (p : ascii -> bool) (s : string) :
  is_empty (rstrip p s) = false ->
  last_is (fun a => negb (p a)) (rstrip p s) = true.
Proof.
  induction s as [|a s IH]; simpl; [discriminate|].
  destruct (rstrip p s) as [|b t] eqn:Et; simpl.
  - destruct (p a) eqn:E; simpl; [discriminate|]. now rewrite E.
  - intros _. apply IH. reflexivity.
Qed.

Lemma last_is_rstrip (p : ascii -> bool) (s : string) :
  last_is p (rstrip p s) = false.
Proof.
  induction s as [|a s IH]; simpl; [reflexivity|].
  destruct (rstrip p s) as [|b t] eqn:Et; simpl.
  - destruct (p a) eqn:E; simpl; [reflexivity | exact E].
  - exact IH.
Qed.

Lemma first_is_strip_by (p : ascii -> bool) (s : string) :
  first_is p (strip_by p s) = false.
Proof.
  unfold strip_by.
  destruct (lstrip p s) as [|a t] eqn:Et; [reflexivity|].
  destruct (rstrip p (String a t)) as [|b u] eqn:Eu; [reflexivity|].
  pose proof (rstrip_head _ _ _ Eu) as ->.
  simpl. exact (lstrip_head _ _ Et).
Qed.

Lemma strip_by_outer (p : ascii -> bool) (w1 s w2 : string) :
  only_chars p w1 = true -> only_chars p w2 = true ->
  strip_by p (w1 ++ s ++ w2) = strip_by p s.
Proof.
  intros H1 H2. unfold strip_by. rewrite (lstrip_only _ _ _ H1).
  induction s as [|a s IH]; simpl.
  - destruct (lstrip_parts p w2) as (l & Hl & Hp).
    assert (E : only_chars p (lstrip p w2) = true).
    { rewrite Hl, only_chars_app in H2. apply andb_prop in H2 as [_ H2].
      exact H2. }
    apply rstrip_only, E.
  - destruct (p a); [exact IH|].
    change (String a (s ++ w2)) with (String a s ++ w2)%string.
    apply rstrip_app_only, H2.
Qed.

Lemma split_of_join_gen (c : ascii) (l : string) (ls : list string) :
  Forall (fun w => contains_char c w = false) (l :: ls) ->
  split c (join (String c EmptyString) (l :: ls)) = l :: ls.
Proof.
  revert l. induction ls as [|m ls IH]; intros l H.
  - inversion H; subst. simpl. apply split_without. assumption.
  - inversion H as [|? ? Hl Hrest]; subst.
    rewrite join_cons. cbn [append].
    rewrite (split_app_sep _ _ _ Hl), (IH _ Hrest). reflexivity.
Qed.

Lemma length_split (c : ascii) (s : string) :
  List.length (split c s) = S (count_char c s).
Proof.
  induction s as [|a s IH]; simpl; [reflexivity|].
  destruct (Ascii.eqb a c); simpl; [now rewrite IH|].
  destruct (split c s); simpl in *; [discriminate | exact IH].
Qed.

End PyStrProps.

(** ** Properties of [split], [join] and [strip] as the script uses them *)

Module StringExtras.
Import PyStr PyStrFacts PyStrProps Layout.

(** X1: [c.join(s.split(c))] is [s]: cutting a text at a character loses
    nothing but that character, which joining puts back. *)
Theorem split_join_round_trip (c : ascii) (s : string) :
  join (String c EmptyString) (split c s) = s.
Proof.
  induction s as [|a s IH]; simpl; [reflexivity|].
  destruct (Ascii.eqb a c) eqn:E.
  - apply Ascii.eqb_eq in E as ->.
    destruct (split c s) as [|w ws] eqn:Es; [now apply split_not_nil in Es|].
    rewrite join_cons, IH. reflexivity.
  - destruct (split c s) as [|w ws] eqn:Es; [now apply split_not_nil in Es|].
    rewrite join_cons_char, IH. reflexivity.
Qed.

(** X2: [s.split(c)] has one piece more than [s] has occurrences of
    [c], and no piece contains [c]. *)
Theorem split_counts_and_frees (c : ascii) (s : string) :
  List.length (split c s) = S (count_char c s) /\
  Forall (fun w => contains_char c w = false) (split c s).
Proof. split; [apply length_split | apply split_pieces_free]. Qed.

(** X3: pieces free of [c], joined by [c] and split again at [c], come
    back as they were, provided there is at least one piece. *)
Theorem join_split_round_trip (c : ascii) (pieces : list string) :
  pieces <> [] ->
  Forall (fun w => contains_char c w = false) pieces ->
  split c (join (String c EmptyString) pieces) = pieces.
Proof.
  destruct pieces as [|l ls]; [congruence|]. intros _.
  apply split_of_join_gen.
Qed.

Lemma join_split_round_trip_witness :
  ["| a |"; "|---|"; EmptyString; "| x |"] <> [] /\
  split newline (join nl ["| a |"; "|---|"; EmptyString; "| x |"])
  = ["| a |"; "|---|"; EmptyString; "| x |"].
Proof.
  split; [discriminate|].
  apply (join_split_round_trip newline); [discriminate|].
  repeat constructor.
Defined.

(** X4: [strip] removes characters at the two ends only, and only the
    stripped kind: the text is the result between a run of such
    characters on the left and one on the right, and the result neither
    starts nor ends with such a character. *)
Theorem strip_removes_only_ends (p : ascii -> bool) (s : string) :
  (exists l r : string,
      s = (l ++ strip_by p s ++ r)%string /\
      only_chars p l = true /\ only_chars p r = true) /\
  first_is p (strip_by p s) = false /\
  last_is p (strip_by p s) = false.
Proof.
  split; [|split; [apply first_is_strip_by | apply last_is_rstrip]].
  destruct (lstrip_parts p s) as (l & Hl & Hpl).
  destruct (rstrip_parts p (lstrip p s)) as (r & Hr & Hpr).
  exists l, r. unfold strip_by. rewrite <- Hr. auto.
Qed.

End StringExtras.

(** ** Further facts on the conversion *)

Module TableProps.
Import PyStr PyStrFacts PyStrProps Table TableFacts Layout.

Lemma cells_not_nil (line : string) : cells line <> [].
Proof.
  unfold cells.
  destruct (split pipe (strip_by (is_char pipe) line)) eqn:E;
    [now apply split_not_nil in E | discriminate].
Qed.

Lemma strip_by_keeps_free (p : ascii -> bool) (c : ascii) (w : string) :
  contains_char c w = false -> contains_char c (strip_by p w) = false.
Proof.
  intros H.
  destruct (lstrip_parts p w) as (l & Hl & _).
  destruct (rstrip_parts p (lstrip p w)) as (r & Hr & _).
  rewrite Hl, Hr, !contains_char_app in H.
  apply orb_false_elim in H as [_ H]. apply orb_false_elim in H as [H _].
  exact H.
Qed.

Lemma isspace_not_pipe (w : string) :
  only_chars isspace w = true -> contains_char pipe w = false.
Proof.
  induction w as [|a w IH]; simpl; intros H; [reflexivity|].
  apply andb_prop in H as [Ha Hw]. rewrite (IH Hw), orb_false_r.
  destruct (Ascii.eqb a pipe) eqn:E; [|reflexivity].
  apply Ascii.eqb_eq in E. subst a. discriminate.
Qed.

Lemma strip_only_space (w : string) :
  only_chars isspace w = true -> strip w = EmptyString.
Proof.
  intros H. unfold strip, strip_by.
  destruct (lstrip_parts isspace w) as (l & Hl & _).
  apply rstrip_only. rewrite Hl, only_chars_app in H.
  apply andb_prop in H as [_ H]. exact H.
Qed.

(** The rows of a frame all of whose data rows are as wide as the
    header. *)
Lemma pd_DataFrame_rect (data : list (list string)) (header : list string) :
  header <> [] ->
  Forall (fun row => List.length row = List.length header) data ->
  pd_DataFrame data header = Ok (mkDataFrame header (map (map Some) data)).
Proof.
  intros Hh Hall. unfold pd_DataFrame. destruct data as [|r data];
    [reflexivity|].
  assert (Hw : width (r :: data) = List.length header).
  { unfold width. apply Nat.le_antisymm.
    - apply list_max_le. apply Forall_map.
      eapply Forall_impl; [|exact Hall]. simpl. intros ? ->. lia.
    - inversion Hall as [|? ? Hr _]; subst. simpl. lia. }
  rewrite Hw, Nat.eqb_refl. f_equal. f_equal.
  apply map_ext_in. intros row Hin.
  rewrite Forall_forall in Hall. rewrite <- (Hall row Hin). apply fill_exact.
Qed.

Lemma contains_char_join (c : ascii) (sep : string) (ls : list string) :
  contains_char c sep = false ->
  Forall (fun w => contains_char c w = false) ls ->
  contains_char c (join sep ls) = false.
Proof.
  intros Hsep. induction ls as [|l ls IH]; intros H; [reflexivity|].
  inversion H as [|? ? Hl Hls]; subst.
  destruct ls as [|m ms]; [exact Hl|].
  rewrite join_cons, !contains_char_app, Hl, Hsep, (IH Hls). reflexivity.
Qed.

Lemma last_is_app (q : ascii -> bool) (x y : string) :
  last_is q y = true -> last_is q (x ++ y) = true.
Proof.
  intros H. induction x as [|a x IH]; [exact H|].
  simpl. destruct (x ++ y)%string eqn:E; [|exact IH].
  destruct x; [|discriminate]. simpl in E. subst y. discriminate.
Qed.

Lemma last_is_join (q : ascii -> bool) (sep l : string) (ls : list string) :
  last_is q (last (l :: ls) EmptyString) = true ->
  last_is q (join sep (l :: ls)) = true.
Proof.
  revert l. induction ls as [|m ms IH]; intros l H; [exact H|].
  rewrite join_cons. apply last_is_app, last_is_app, IH. exact H.
Qed.

(** The text between the outer pipes of a rendered row. *)
Lemma strip_pipes_render_row (row : list string) :
  strip_by (is_char pipe) (render_row row)
  = (" " ++ join " | " row ++ " ")%string.
Proof.
  unfold render_row, strip_by. cbn [append lstrip].
  change (is_char pipe "|") with true.
  change (is_char pipe " ") with false. cbv iota.
  change (String " " (join " | " row ++ " |"))%string
    with (" " ++ (join " | " row ++ " |"))%string.
  rewrite <- append_assoc.
  rewrite rstrip_app_keep; reflexivity.
Qed.

Lemma split_padded_join (c : string) (cs : list string) :
  Forall (fun w => contains_char pipe w = false) (c :: cs) ->
  split pipe (" " ++ join " | " (c :: cs) ++ " ")
  = map (fun w => (" " ++ w ++ " ")%string) (c :: cs).
Proof.
  revert c. induction cs as [|d ds IH]; intros c H;
    inversion H as [|? ? Hc Hrest]; subst.
  - cbn [join map]. apply split_without.
    change (" " ++ c ++ " ")%string with (String " " (c ++ " ")).
    cbn [contains_char]. rewrite contains_char_app, Hc. reflexivity.
  - rewrite join_cons. cbn [map].
    replace (" " ++ (c ++ " | " ++ join " | " (d :: ds)) ++ " ")%string
      with ((" " ++ c ++ " ") ++ String pipe
              (" " ++ join " | " (d :: ds) ++ " "))%string.
    + rewrite split_app_sep, (IH d Hrest); [reflexivity|].
      change (" " ++ c ++ " ")%string with (String " " (c ++ " ")).
      cbn [contains_char]. rewrite contains_char_app, Hc. reflexivity.
    + cbn [append]. f_equal. rewrite !append_assoc. reflexivity.
Qed.

Lemma cells_render_row (row : list string) :
  plain_row row -> cells (render_row row) = row.
Proof.
  intros [Hne Hall]. unfold cells. rewrite strip_pipes_render_row.
  destruct row as [|c cs]; [congruence|].
  rewrite split_padded_join.
  - rewrite map_map. rewrite <- (map_id (c :: cs)) at 2.
    apply map_ext_in. intros w Hw.
    rewrite Forall_forall in Hall. destruct (Hall w Hw) as (Hs & _).
    unfold strip. rewrite strip_by_outer; [exact Hs | reflexivity..].
  - eapply Forall_impl; [|exact Hall]. intros w (_ & Hp & _). exact Hp.
Qed.

Lemma render_row_no_newline (row : list string) :
  plain_row row -> contains_char newline (render_row row) = false.
Proof.
  intros [_ Hall]. unfold render_row.
  rewrite !contains_char_app, contains_char_join; [reflexivity..|].
  eapply Forall_impl; [|exact Hall]. intros w (_ & _ & Hn). exact Hn.
Qed.

Lemma render_row_ends_with_pipe (row : list string) :
  last_is (fun a => negb (isspace a)) (render_row row) = true.
Proof.
  unfold render_row.
  change ("| " ++ join " | " row ++ " |")%string
    with ("| " ++ (join " | " row ++ " |"))%string.
  apply last_is_app, last_is_app. reflexivity.
Qed.

Lemma last_of_all (q : ascii -> bool) (ls : list string) :
  ls <> [] -> Forall (fun l => last_is q l = true) ls ->
  last_is q (last ls EmptyString) = true.
Proof.
  induction ls as [|l ls IH]; [congruence|]. intros _ H.
  inversion H as [|? ? Hl Hls]; subst.
  destruct ls as [|m ms]; [exact Hl|].
  change (last (l :: m :: ms) EmptyString) with (last (m :: ms) EmptyString).
  apply IH; [discriminate | exact Hls].
Qed.

Lemma split_app_last (c : ascii) (x w : string) :
  contains_char c w = false ->
  split c (x ++ String c w) = split c x ++ [w].
Proof.
  intros Hw. induction x as [|a x IH]; simpl.
  - rewrite Ascii.eqb_refl, (split_without _ _ Hw). reflexivity.
  - destruct (Ascii.eqb a c); [now rewrite IH|].
    rewrite IH. destruct (split c x) eqn:E; [now apply split_not_nil in E|].
    reflexivity.
Qed.

(** Stripping the pipes on the left of a text that ends with a pipe and
    a pipe-free tail leaves either that tail or a text that still ends
    with the pipe and the tail. *)
Lemma lstrip_before_tail (c : ascii) (l w : string) :
  contains_char c w = false ->
  lstrip (is_char c) (l ++ String c w) = w \/
  exists l', lstrip (is_char c) (l ++ String c w) = (l' ++ String c w)%string.
Proof.
  intros Hw. induction l as [|a l IH]; simpl.
  - left. unfold is_char at 1. rewrite Ascii.eqb_refl.
    apply lstrip_without, Hw.
  - destruct (is_char c a); [exact IH|].
    right. exists (String a l). reflexivity.
Qed.

Lemma split_keeps_free (c d : ascii) (s : string) :
  contains_char d s = false ->
  Forall (fun w => contains_char d w = false) (split c s).
Proof.
  induction s as [|a s IH]; simpl; intros H.
  - constructor; [reflexivity | constructor].
  - apply orb_false_elim in H as [Ha Hs]. specialize (IH Hs).
    destruct (Ascii.eqb a c).
    + constructor; [reflexivity | exact IH].
    + destruct (split c s) as [|w ws].
      * constructor; [simpl; now rewrite Ha | constructor].
      * inversion IH as [|? ? Hw Hws]; subst.
        constructor; [simpl; now rewrite Ha, Hw | exact Hws].
Qed.

(** The cells of a line without line feed are trimmed and hold neither
    a pipe nor a line feed. *)
Lemma cells_plain_cells (line : string) :
  contains_char newline line = false -> Forall plain_cell (cells line).
Proof.
  intros Hn. unfold cells. apply Forall_map.
  assert (H : Forall (fun w => contains_char pipe w = false
                               /\ contains_char newline w = false)
                (split pipe (strip_by (is_char pipe) line))).
  { apply Forall_and; [apply split_pieces_free|].
    apply split_keeps_free, strip_by_keeps_free, Hn. }
  eapply Forall_impl; [|exact H]. intros w [Hp Hl].
  repeat split; [apply strip_idem | apply strip_by_keeps_free, Hp
                | apply strip_by_keeps_free, Hl].
Qed.

(** A text whose last character is not stripped keeps what follows it
    when stripped on the left, and still ends with that character. *)
Lemma lstrip_app_keep (p : ascii -> bool) (l x : string) :
  last_is (fun a => negb (p a)) l = true ->
  lstrip p (l ++ x) = (lstrip p l ++ x)%string.
Proof.
  induction l as [|a t IH]; [discriminate|]. intros H.
  cbn [append lstrip]. destruct (p a) eqn:E; [|reflexivity].
  apply IH. destruct t as [|b t]; [|exact H].
  simpl in H. rewrite E in H. discriminate.
Qed.

Lemma last_is_lstrip (p : ascii -> bool) (l : string) :
  last_is (fun a => negb (p a)) l = true ->
  last_is (fun a => negb (p a)) (lstrip p l) = true.
Proof.
  induction l as [|a t IH]; [discriminate|]. intros H.
  cbn [lstrip]. destruct (p a) eqn:E; [|exact H].
  apply IH. destruct t as [|b t]; [|exact H].
  simpl in H. rewrite E in H. discriminate.
Qed.

End TableProps.

(** ** Properties of the conversion of the Markdown answer *)

Module TableExtras.
Import PyStr PyStrFacts PyStrProps Table TableFacts TableProps Layout.

(** X5: the header and every row have at least one cell, one more than
    there are pipes left once the outer pipes are stripped, and every
    cell is trimmed and free of pipes. *)
Theorem cells_are_trimmed (line : string) :
  cells line <> [] /\
  List.length (cells line)
  = S (count_char pipe (strip_by (is_char pipe) line)) /\
  Forall (fun c => strip c = c /\ contains_char pipe c = false) (cells line).
Proof.
  split; [apply cells_not_nil|]. unfold cells. split.
  - rewrite length_map. apply length_split.
  - apply Forall_map.
    eapply Forall_impl; [|apply split_pieces_free].
    intros w Hw. split; [apply strip_idem | apply strip_by_keeps_free, Hw].
Qed.

(** X6: a row of trimmed cells without pipes, written between pipes
    with a space on each side of a cell, is read back as the same
    cells. *)
Theorem render_row_round_trip (row : list string) :
  row <> [] ->
  Forall (fun c => strip c = c /\ contains_char pipe c = false) row ->
  cells (render_row row) = row.
Proof.
  intros Hne Hall. unfold cells. rewrite strip_pipes_render_row.
  destruct row as [|c cs]; [congruence|].
  rewrite split_padded_join.
  - rewrite map_map. rewrite <- (map_id (c :: cs)) at 2.
    apply map_ext_in. intros w Hw.
    rewrite Forall_forall in Hall. destruct (Hall w Hw) as (Hs & _).
    unfold strip. rewrite strip_by_outer; [exact Hs | reflexivity..].
  - eapply Forall_impl; [|exact Hall]. intros w (_ & Hp). exact Hp.
Qed.

Lemma render_row_round_trip_witness :
  cells "| Alice |  | 5 |" = ["Alice"; EmptyString; "5"].
Proof.
  apply (render_row_round_trip (row := ["Alice"; EmptyString; "5"]));
    [discriminate | repeat constructor].
Defined.

(** X7: a table in the usual layout is converted to itself: when the
    header and the rows hold trimmed cells without pipes or line feeds,
    every row is as wide as the header, and the separator line has no
    line feed and does not end with whitespace, the frame has the
    header as columns and the rows as rows. *)
Theorem render_table_round_trip (header : list string) (separator : string)
    (data : list (list string)) :
  plain_row header ->
  Forall plain_row data ->
  Forall (fun row => List.length row = List.length header) data ->
  contains_char newline separator = false ->
  last_is (fun a => negb (isspace a)) separator = true ->
  markdown_to_dataframe (render_table header separator data)
  = Ok (mkDataFrame header (map (map Some) data)).
Proof.
  intros Hh Hd Hlen Hsn Hsl.
  set (L := render_row header :: separator :: map render_row data).
  assert (Hstrip : strip (render_table header separator data)
                   = render_table header separator data).
  { unfold strip, strip_by, render_table. fold L.
    assert (El : lstrip isspace (join nl L) = join nl L).
    { unfold L. rewrite join_cons. reflexivity. }
    rewrite El. apply rstrip_last. unfold L. apply last_is_join.
    apply last_of_all; [discriminate|].
    constructor; [apply render_row_ends_with_pipe|].
    constructor; [exact Hsl|].
    apply Forall_map, Forall_forall. intros row _.
    apply render_row_ends_with_pipe. }
  assert (Hlines : lines_of (render_table header separator data) = L).
  { unfold lines_of. rewrite Hstrip. unfold render_table. fold L.
    apply split_of_join_gen.
    constructor; [apply render_row_no_newline, Hh|].
    constructor; [exact Hsn|].
    apply Forall_map. eapply Forall_impl; [|exact Hd].
    intros row Hrow. apply render_row_no_newline, Hrow. }
  rewrite (markdown_to_dataframe_lines _ Hlines).
  rewrite (cells_render_row Hh), map_map.
  replace (map (fun row => cells (render_row row)) data) with data.
  - apply pd_DataFrame_rect; [apply Hh | exact Hlen].
  - rewrite <- (map_id data) at 1. apply map_ext_in. intros row Hin.
    rewrite Forall_forall in Hd. symmetry. apply cells_render_row, Hd, Hin.
Qed.

Lemma render_table_round_trip_witness :
  markdown_to_dataframe
    (render_table ["Name"; "Years"] "|---|---|"
       [["Alice"; "5"]; ["Bob"; EmptyString]])
  = Ok (mkDataFrame ["Name"; "Years"]
          [[Some "Alice"; Some "5"]; [Some "Bob"; Some EmptyString]]).
Proof.
  apply (@render_table_round_trip ["Name"; "Years"] "|---|---|"
           [["Alice"; "5"]; ["Bob"; EmptyString]]).
  - split; [discriminate | repeat constructor].
  - repeat constructor; discriminate.
  - repeat constructor.
  - reflexivity.
  - reflexivity.
Defined.

(** X8: when every line from index 2 on has as many cells as the first
    line, the frame is built, with the cells of the first line as
    columns and the cells of each later line as a row; an answer of one
    or two lines gives a frame without rows. *)
Theorem equal_widths_convert (s : string) :
  Forall (fun line => List.length (cells line)
                      = List.length (header_of (lines_of s)))
         (skipn 2 (lines_of s)) ->
  markdown_to_dataframe s
  = Ok (mkDataFrame (header_of (lines_of s))
          (map (fun line => map Some (cells line)) (skipn 2 (lines_of s)))).
Proof.
  intros H. unfold markdown_to_dataframe, data_of.
  rewrite pd_DataFrame_rect.
  - rewrite map_map. reflexivity.
  - apply cells_not_nil.
  - apply Forall_map. exact H.
Qed.

Lemma equal_widths_convert_witness :
  markdown_to_dataframe TableExamples.trailing
  = Ok (mkDataFrame (header_of (lines_of TableExamples.trailing))
          (map (fun line => map Some (cells line))
             (skipn 2 (lines_of TableExamples.trailing)))).
Proof.
  apply (equal_widths_convert TableExamples.trailing).
  repeat constructor.
Defined.

(** X9: whitespace before and after the answer does not change the
    result of the conversion. *)
Theorem outer_whitespace_is_ignored (w1 s w2 : string) :
  only_chars isspace w1 = true ->
  only_chars isspace w2 = true ->
  markdown_to_dataframe (w1 ++ s ++ w2) = markdown_to_dataframe s.
Proof.
  intros H1 H2. unfold markdown_to_dataframe, lines_of, strip.
  rewrite (@strip_by_outer isspace w1 s w2 H1 H2). reflexivity.
Qed.

Lemma outer_whitespace_is_ignored_witness :
  markdown_to_dataframe (nl ++ "  " ++ TableExamples.scenario1 ++ " " ++ nl)
  = markdown_to_dataframe TableExamples.scenario1.
Proof.
  apply (outer_whitespace_is_ignored (nl ++ "  ") TableExamples.scenario1
           (" " ++ nl)); reflexivity.
Defined.

(** X10: a line is not trimmed before its outer pipes are stripped.
    When the closing pipe of a line, which follows a character other
    than a pipe, is itself followed by whitespace (a carriage return,
    say), that pipe is not stripped and cuts off one more cell: the
    line has the cells of the same line without the whitespace, and
    one more, empty, last cell. *)
Theorem whitespace_after_pipe_adds_cell (l w : string) :
  last_is (fun a => negb (is_char pipe a)) l = true ->
  w <> EmptyString ->
  only_chars isspace w = true ->
  cells (l ++ String pipe w)
  = cells (l ++ String pipe EmptyString) ++ [EmptyString].
Proof.
  intros Hl Hne Hw. pose proof (isspace_not_pipe w Hw) as Hp.
  assert (Hkeep : is_empty (rstrip (is_char pipe) w) = false).
  { rewrite rstrip_without by exact Hp.
    destruct w; [congruence | reflexivity]. }
  assert (Hstrip : strip w = EmptyString) by (apply strip_only_space, Hw).
  pose proof (last_is_lstrip (is_char pipe) l Hl) as Hl'.
  unfold cells, strip_by.
  rewrite !lstrip_app_keep by exact Hl.
  set (l' := lstrip (is_char pipe) l) in *.
  rewrite (@rstrip_app_only (is_char pipe) l' (String pipe EmptyString))
    by reflexivity.
  rewrite (rstrip_last (is_char pipe) l' Hl').
  change (l' ++ String pipe w)%string
    with (l' ++ (String pipe EmptyString ++ w))%string.
  rewrite <- append_assoc, rstrip_app_keep by exact Hkeep.
  rewrite rstrip_without by exact Hp. rewrite append_assoc.
  cbn [append]. rewrite split_app_last by exact Hp. rewrite map_app.
  simpl. rewrite Hstrip. reflexivity.
Qed.

Lemma whitespace_after_pipe_adds_cell_witness :
  cells ("| Alice | 5 "
         ++ String pipe (String (ascii_of_nat 13) EmptyString))
  = ["Alice"; "5"] ++ [EmptyString] /\
  markdown_to_dataframe TableExamples.crlf
  = Ok (mkDataFrame ["Name"; "Years"; EmptyString]
          [[Some "Alice"; Some "5"; Some EmptyString];
           [Some "Bob"; Some "3"; None]]).
Proof.
  split; [|reflexivity].
  apply (@whitespace_after_pipe_adds_cell "| Alice | 5 "
           (String (ascii_of_nat 13) EmptyString));
    [reflexivity | discriminate | reflexivity].
Defined.

(** X19: the outer pipes are stripped as a run, so pipes added at
    either end of a line change nothing: an empty first or last cell
    written without a space between its pipes is lost. *)
Theorem extra_outer_pipes_are_lost (w1 line w2 : string) :
  only_chars (is_char pipe) w1 = true ->
  only_chars (is_char pipe) w2 = true ->
  cells (w1 ++ line ++ w2) = cells line.
Proof.
  intros H1 H2. unfold cells.
  rewrite (@strip_by_outer (is_char pipe) w1 line w2 H1 H2). reflexivity.
Qed.

Lemma extra_outer_pipes_are_lost_witness :
  cells ("||" ++ " Alice | 5 " ++ "|") = cells " Alice | 5 ".
Proof.
  apply (extra_outer_pipes_are_lost "||" " Alice | 5 " "|"); reflexivity.
Defined.

(** X20: in a frame that is built, every column name and every cell
    that is not a missing value is trimmed and holds neither a pipe nor
    a line feed. *)
Theorem frame_cells_are_plain (s : string) (df : DataFrame) :
  markdown_to_dataframe s = Ok df ->
  Forall plain_cell (columns df) /\
  Forall (Forall (fun cell => match cell with
                              | Some c => plain_cell c
                              | None => True
                              end))
         (rows df).
Proof.
  unfold markdown_to_dataframe. intros Hdf.
  apply pd_DataFrame_Ok in Hdf as (Hc & Hr & _).
  assert (Hlines : Forall (fun l => contains_char newline l = false)
                     (lines_of s)) by apply split_pieces_free.
  rewrite Hc, Hr. split.
  - unfold header_of. apply cells_plain_cells.
    destruct (lines_of s) as [|l0 ls]; [reflexivity|].
    inversion Hlines; assumption.
  - apply Forall_map. unfold data_of. apply Forall_map.
    apply Forall_forall. intros line Hin.
    assert (Hl : contains_char newline line = false).
    { rewrite Forall_forall in Hlines. apply Hlines.
      rewrite <- (firstn_skipn 2 (lines_of s)). apply in_or_app. now right. }
    unfold fill. apply Forall_app. split.
    + apply Forall_map. exact (cells_plain_cells line Hl).
    + apply Forall_forall. intros cell Hcell.
      apply repeat_spec in Hcell. subst cell. exact I.
Qed.

Lemma frame_cells_are_plain_witness :
  exists df, markdown_to_dataframe TableExamples.ragged = Ok df /\
    Forall plain_cell (columns df).
Proof.
  eexists. split; [reflexivity|].
  apply (frame_cells_are_plain TableExamples.ragged eq_refl).
Defined.

End TableExtras.

(** ** Further facts on the script *)

Module AppProps.
Import PyStr PyStrFacts PyStrProps Table TableFacts App AppFacts Layout.

Lemma read_pages_app (texts : list string)
    (rest : list (result string string)) (text : string) :
  read_pages (map Ok texts ++ rest) text
  = read_pages rest (text ++ all_text texts).
Proof.
  revert text. induction texts as [|t texts IH]; intros text; simpl.
  - now rewrite append_empty_r.
  - rewrite IH, append_assoc. reflexivity.
Qed.

Lemma extract_warns_nothing (pdf_file : Pdf) :
  warnings (events (extract_text_from_pdf pdf_file)) = [].
Proof.
  unfold extract_text_from_pdf.
  destruct pdf_file as [pages|e]; [destruct (read_pages pages _)|];
    reflexivity.
Qed.

Lemma warnings_app (log1 log2 : list Event) :
  warnings (log1 ++ log2) = warnings log1 ++ warnings log2.
Proof. apply flat_map_app. Qed.

Lemma iteration_counts (pdf : UploadedFile) :
  List.length (kept pdf) + List.length (warnings (iteration_events pdf)) = 1.
Proof.
  unfold kept, iteration_events.
  change (warnings (?e :: ?l)) with (warnings [e] ++ warnings l).
  rewrite !warnings_app, extract_warns_nothing.
  destruct (extracted pdf); reflexivity.
Qed.

Lemma kept_not_empty (pdf : UploadedFile) :
  Forall (fun t => t <> EmptyString) (kept pdf).
Proof.
  unfold kept, extracted.
  destruct (value (extract_text_from_pdf (getvalue pdf))) as [[|a t]|];
    simpl; repeat constructor. discriminate.
Qed.

Lemma join_cons_more (sep x : string) (t : list string) :
  t <> [] -> join sep (x :: t) = (x ++ sep ++ join sep t)%string.
Proof. destruct t; [congruence | reflexivity]. Qed.

Lemma join_unescaped (sep a b : string) (xs ys : list string) :
  join sep (xs ++ (a ++ sep ++ b)%string :: ys)
  = join sep (xs ++ a :: b :: ys).
Proof.
  induction xs as [|x xs IH].
  - cbn [app]. destruct ys as [|y ys]; [reflexivity|].
    rewrite !join_cons, !append_assoc. reflexivity.
  - cbn [app]. rewrite !join_cons_more, IH; [reflexivity|..];
      destruct xs; discriminate.
Qed.

Lemma display_single_line (generated_content : string) :
  contains_char newline (strip generated_content) = false ->
  events (display generated_content)
  = [st_subheader "Candidate Comparison Table";
     st_markdown generated_content;
     st_subheader "Formatted Data Table";
     if has_duplicates (cells (strip generated_content))
     then st_info "Could not automatically convert the output to a formatted table, displaying raw output above."
     else st_dataframe (mkDataFrame (cells (strip generated_content)) [])].
Proof.
  intros Hnl. unfold display, markdown_to_dataframe, lines_of.
  rewrite split_without by exact Hnl.
  change (pd_DataFrame (data_of [strip generated_content])
            (header_of [strip generated_content]))
    with (@Ok ValueError DataFrame
            (mkDataFrame (cells (strip generated_content)) [])).
  cbv iota. cbn [columns].
  destruct (has_duplicates (cells (strip generated_content))); reflexivity.
Qed.

End AppProps.

(** ** Properties of the extraction, of the prompt and of a run *)

Module AppExtras.
Import PyStr PyStrFacts PyStrProps Table TableFacts App AppFacts AppProps
  Layout.

(** X11: when PyPDF2 reads every page, the extracted text is the texts
    of the pages one after the other, and nothing is shown; a document
    without pages gives the empty text. *)
Theorem extract_concatenates_pages (texts : list string) :
  extract_text_from_pdf (Ok (map Ok texts)) = (Some (all_text texts), []).
Proof.
  unfold extract_text_from_pdf.
  rewrite <- (app_nil_r (map Ok texts)), read_pages_app. reflexivity.
Qed.

(** X12: extraction fails as a whole: when a page raises, the text of
    the pages before it is dropped and the pages after it are not read;
    the result is None and the only event is the error message with
    the exception, as when the reader itself raises. *)
Theorem extract_fails_as_a_whole (texts : list string) (e : string)
    (rest : list (result string string)) :
  extract_text_from_pdf (Ok (map Ok texts ++ Raise e :: rest))
  = (None, [st_error ("Error reading PDF file: " ++ e)%string]) /\
  extract_text_from_pdf (Ok (map Ok texts ++ Raise e :: rest))
  = extract_text_from_pdf (Raise e).
Proof.
  unfold extract_text_from_pdf. rewrite read_pages_app. split; reflexivity.
Qed.

(** X13: every uploaded file is either kept or warned about, never both
    and never neither: the texts kept and the warnings issued add up to
    the number of files, and no kept text is empty. *)
Theorem loop_keeps_or_warns (uploaded_files : list UploadedFile) :
  List.length (value (extraction_loop uploaded_files []))
  + List.length (warnings (events (extraction_loop uploaded_files [])))
  = List.length uploaded_files /\
  Forall (fun t => t <> EmptyString)
         (value (extraction_loop uploaded_files [])).
Proof.
  rewrite extraction_loop_unfold. unfold value, events. cbn [fst snd app].
  induction uploaded_files as [|pdf files [IHn IHf]]; [split; constructor|].
  cbn [flat_map]. rewrite warnings_app, !length_app.
  pose proof (iteration_counts pdf). split; [cbn [List.length]; lia|].
  apply Forall_app. split; [apply kept_not_empty | exact IHf].
Qed.

(** X14: the loop goes through the uploads in order and only appends:
    running it on two lists in a row is running it on the first and
    then on the second from the texts kept so far, and the texts
    already kept stay in front. *)
Theorem loop_composes (first_files more_files : list UploadedFile)
    (all_resume_texts : list string) :
  value (extraction_loop (first_files ++ more_files) all_resume_texts)
  = value (extraction_loop more_files
             (value (extraction_loop first_files all_resume_texts))) /\
  events (extraction_loop (first_files ++ more_files) all_resume_texts)
  = events (extraction_loop first_files all_resume_texts)
    ++ events (extraction_loop more_files
                 (value (extraction_loop first_files all_resume_texts))) /\
  value (extraction_loop first_files all_resume_texts)
  = all_resume_texts ++ value (extraction_loop first_files []).
Proof.
  rewrite !extraction_loop_unfold. unfold value, events. cbn [fst snd app].
  rewrite !flat_map_app, app_assoc. repeat split.
Qed.

(** X15: a run calls the model at most once: once, with the prompt of
    the texts kept, when the button is pressed and some text is kept,
    and never otherwise. *)
Theorem one_call_at_most (model : string -> result string string)
    (uploaded_files : list UploadedFile) (button : bool) :
  llm_calls (events (main model uploaded_files button))
  = match button, value (extraction_loop uploaded_files []) with
    | true, t :: ts => [build_prompt (t :: ts)]
    | _, _ => []
    end /\
  List.length (llm_calls (events (main model uploaded_files button))) <= 1.
Proof.
  rewrite main_calls, extraction_loop_unfold. unfold value. cbn [fst app].
  destruct button; [destruct (flat_map kept uploaded_files)|]; simpl;
    split; (reflexivity || lia).
Qed.

Unset Implicit Arguments.

(** X16: an exception of the model is not reported as an error: it
    becomes the returned text, after exactly one call and no retry, and
    that text is displayed and converted like an answer.  When it
    holds no line feed, the conversion succeeds with the cells of the
    message as columns and no row: the frame is shown, unless two of
    those cells are equal, in which case [st.dataframe] raises and the
    notice of the [except] branch is shown instead. *)
Theorem model_error_is_shown_as_table
    (model : string -> result string string) (resume_texts : list string)
    (e : string) :
  resume_texts <> [] ->
  model (build_prompt resume_texts) = Raise e ->
  contains_char newline
    (strip ("An error occurred while calling the Gemini API: " ++ e))
  = false ->
  generate_table_from_resumes model resume_texts
  = (("An error occurred while calling the Gemini API: " ++ e)%string,
     [generate_content (build_prompt resume_texts)]) /\
  markdown_to_dataframe
    ("An error occurred while calling the Gemini API: " ++ e)
  = Ok (mkDataFrame
          (cells (strip ("An error occurred while calling the Gemini API: "
                         ++ e)))
          []) /\
  events (display ("An error occurred while calling the Gemini API: " ++ e))
  = [st_subheader "Candidate Comparison Table";
     st_markdown ("An error occurred while calling the Gemini API: " ++ e);
     st_subheader "Formatted Data Table";
     if has_duplicates
          (cells (strip ("An error occurred while calling the Gemini API: "
                         ++ e)))
     then st_info "Could not automatically convert the output to a formatted table, displaying raw output above."
     else st_dataframe
            (mkDataFrame
               (cells (strip ("An error occurred while calling the Gemini API: "
                              ++ e)))
               [])].
Proof.
  intros Hne Hraise Hnl. split; [|split].
  - destruct resume_texts as [|t ts]; [congruence|].
    cbn [generate_table_from_resumes]. rewrite Hraise. reflexivity.
  - unfold markdown_to_dataframe, lines_of.
    rewrite split_without by exact Hnl. reflexivity.
  - apply display_single_line, Hnl.
Qed.

Lemma model_error_is_shown_as_table_witness :
  (generate_table_from_resumes failing_model ["Alice, 5 years of Rust"]
   = ("An error occurred while calling the Gemini API: 429 quota exceeded",
      [generate_content (build_prompt ["Alice, 5 years of Rust"])]) /\
   events (display "An error occurred while calling the Gemini API: 429 quota exceeded")
   = [st_subheader "Candidate Comparison Table";
      st_markdown "An error occurred while calling the Gemini API: 429 quota exceeded";
      st_subheader "Formatted Data Table";
      st_dataframe
        (mkDataFrame
           ["An error occurred while calling the Gemini API: 429 quota exceeded"]
           [])]) /\
  events (display "An error occurred while calling the Gemini API: quota | 429 | 429")
  = [st_subheader "Candidate Comparison Table";
     st_markdown "An error occurred while calling the Gemini API: quota | 429 | 429";
     st_subheader "Formatted Data Table";
     st_info "Could not automatically convert the output to a formatted table, displaying raw output above."].
Proof.
  split.
  - destruct (model_error_is_shown_as_table failing_model
                ["Alice, 5 years of Rust"] "429 quota exceeded")
      as (Hg & _ & Hd);
      [discriminate | reflexivity | vm_compute; reflexivity |].
    split; [exact Hg|]. etransitivity; [exact Hd|]. vm_compute. reflexivity.
  - destruct (model_error_is_shown_as_table repeating_model
                ["Alice, 5 years of Rust"] "quota | 429 | 429")
      as (_ & _ & Hd);
      [discriminate | reflexivity | vm_compute; reflexivity |].
    etransitivity; [exact Hd|]. vm_compute. reflexivity.
Defined.

Set Implicit Arguments.

(** X17: the success message says that text was extracted from all
    PDFs whenever at least one text is kept, also when files were
    skipped: the skip warning of a skipped file and the success message
    are both shown. *)
Theorem success_message_despite_skips
    (model : string -> result string string)
    (uploaded_files : list UploadedFile) (pdf : UploadedFile) :
  In pdf uploaded_files ->
  extracted pdf = None ->
  value (extraction_loop uploaded_files []) <> [] ->
  In (skip_warning pdf) (events (analysis model uploaded_files)) /\
  In (st_success "Successfully extracted text from all PDFs. Now generating the table...")
     (events (analysis model uploaded_files)).
Proof.
  intros Hin Hnone Hkept.
  rewrite extraction_loop_unfold in Hkept. unfold value in Hkept.
  cbn [fst app] in Hkept.
  rewrite analysis_events. split.
  - right. apply in_or_app. left. apply in_flat_map. exists pdf.
    split; [exact Hin|]. apply kept_nil_warns. unfold kept.
    rewrite Hnone. reflexivity.
  - right. apply in_or_app. right.
    destruct (flat_map kept uploaded_files); [congruence|]. left. reflexivity.
Qed.

Lemma success_message_despite_skips_witness :
  In (skip_warning broken_pdf)
     (events (analysis canned_model [alice_pdf; broken_pdf])) /\
  In (st_success "Successfully extracted text from all PDFs. Now generating the table...")
     (events (analysis canned_model [alice_pdf; broken_pdf])).
Proof.
  apply (@success_message_despite_skips canned_model
           [alice_pdf; broken_pdf] broken_pdf).
  - right. left. reflexivity.
  - reflexivity.
  - discriminate.
Defined.

(** X18: the separator between resumes is not escaped: a resume whose
    text contains the separator gives the same prompt as two resumes,
    so the model cannot tell them apart. *)
Theorem separator_is_not_escaped (before after : list string)
    (first_part second_part : string) :
  build_prompt
    (before ++ (first_part ++ new_resume_separator ++ second_part)%string
            :: after)
  = build_prompt (before ++ first_part :: second_part :: after).
Proof.
  unfold build_prompt. rewrite join_unescaped. reflexivity.
Qed.

End AppExtras.
